(** * SiteScout CRM agent ([main.py]): a shallow embedding and its properties

    The development follows the layout of [main.py]:
    - [PyStr]: the [str] methods the services call ([lower], [capitalize],
      [replace], [strip], the [in] test) and the decimal rendering of an [int];
    - [MD5]: [hashlib.md5], run on the UTF-8 bytes of a string;
    - [PyFloat]: binary64 values, float literals, [round(x, 1)];
    - [PyRandom]: the interface of the [random] module the mock service draws from;
    - [Services]: [mock_scout_service], [ai_scout_service],
      [generate_audit_and_message] and [verify_email].

    Text is modelled over the code points below 256 (ASCII and Latin-1): a
    [string] stands for the [str] with the same code points.  On this
    repertoire [lower], [strip], [replace], the [in] test and [encode] (UTF-8)
    are those of Python, character for character; [upper] and [capitalize]
    are, except on [U+00FF] and [U+00B5], whose capitals ([U+0178], [U+039C])
    lie beyond it and which are left as they are.  Code points from 256 on,
    lone surrogates among them, are outside the embedding. *)

From Stdlib Require Import ZArith List String Ascii Bool Lia.
From Stdlib Require Import DecimalString SpecFloat.
From Stdlib Require Import DecimalZ DecimalPos.
Import ListNotations.

Local Open Scope Z_scope.

(** ** [str] methods *)

Module PyStr.
Local Open Scope string_scope.
Local Open Scope Z_scope.

Definition code (c : ascii) : Z := Z.of_N (N_of_ascii c).
Definition chr (z : Z) : ascii := ascii_of_N (Z.to_N z).

(** The characters with a lower-case form: [A]-[Z], and [U+00C0]-[U+00DE]
    but for the multiplication sign [U+00D7]. *)
Definition is_upper (c : ascii) : bool :=
  let n := code c in
  ((65 <=? n) && (n <=? 90)) ||
  ((192 <=? n) && (n <=? 222) && negb (n =? 215)).

(** The characters with a one-character capital below 256: [a]-[z], and
    [U+00E0]-[U+00FE] but for the division sign [U+00F7]. *)
Definition is_lower (c : ascii) : bool :=
  let n := code c in
  ((97 <=? n) && (n <=? 122)) ||
  ((224 <=? n) && (n <=? 254) && negb (n =? 247)).

Definition lower_char (c : ascii) : ascii :=
  if is_upper c then chr (code c + 32) else c.
Definition upper_char (c : ascii) : ascii :=
  if is_lower c then chr (code c - 32) else c.

(** The sharp s, [U+00DF], whose capital is two letters. *)
Definition is_sharp_s (c : ascii) : bool := code c =? 223.

(** Every code point below 128. *)
Fixpoint is_ascii (s : string) : bool :=
  match s with
  | EmptyString => true
  | String c r => (code c <? 128) && is_ascii r
  end.

(** [s.lower()] *)
Fixpoint lower (s : string) : string :=
  match s with
  | EmptyString => EmptyString
  | String c r => String (lower_char c) (lower r)
  end.

(** [s.upper()]; the sharp s becomes ["SS"]. *)
Fixpoint upper (s : string) : string :=
  match s with
  | EmptyString => EmptyString
  | String c r =>
      if is_sharp_s c then String "S" (String "S" (upper r))
      else String (upper_char c) (upper r)
  end.

(** [s.capitalize()]: first character title-cased (a sharp s becomes ["Ss"]),
    the rest lower-cased. *)
Definition capitalize (s : string) : string :=
  match s with
  | EmptyString => EmptyString
  | String c r =>
      if is_sharp_s c then String "S" (String "s" (lower r))
      else String (upper_char c) (lower r)
  end.

(** [s.replace(" ", t)]: every space replaced by the string [t]. *)
Fixpoint replace_space (t s : string) : string :=
  match s with
  | EmptyString => EmptyString
  | String c r =>
      if Ascii.eqb c " "%char then t ++ replace_space t r
      else String c (replace_space t r)
  end.

(** The characters [str.strip()] removes: TAB, LF, VT, FF, CR, FS, GS, RS, US,
    the space, NEL ([U+0085]) and the no-break space ([U+00A0]). *)
Definition is_space (c : ascii) : bool :=
  let n := code c in
  ((9 <=? n) && (n <=? 13)) || ((28 <=? n) && (n <=? 32)) ||
  (n =? 133) || (n =? 160).

Fixpoint lstrip (s : string) : string :=
  match s with
  | EmptyString => EmptyString
  | String c r => if is_space c then lstrip r else s
  end.

Fixpoint rstrip (s : string) : string :=
  match s with
  | EmptyString => EmptyString
  | String c r =>
      match rstrip r with
      | EmptyString => if is_space c then EmptyString else String c EmptyString
      | r' => String c r'
      end
  end.

(** [s.strip()] *)
Definition strip (s : string) : string := rstrip (lstrip s).

(** A string made of characters [strip] removes (the empty string included). *)
Fixpoint all_space (s : string) : bool :=
  match s with
  | EmptyString => true
  | String c r => is_space c && all_space r
  end.

(** [s.startswith(p)] *)
Fixpoint startswith (p s : string) : bool :=
  match p, s with
  | EmptyString, _ => true
  | String _ _, EmptyString => false
  | String a p', String b s' => Ascii.eqb a b && startswith p' s'
  end.

(** [p in s] *)
Fixpoint contains (p s : string) : bool :=
  startswith p s ||
  match s with
  | EmptyString => false
  | String _ r => contains p r
  end.

(** [str(n)] for an [int]. *)
Definition str_of_int (z : Z) : string := NilZero.string_of_int (Z.to_int z).

(** [s.encode()], UTF-8: one byte for a code point below 128, two bytes for
    the others. *)
Fixpoint encode (s : string) : list Z :=
  match s with
  | EmptyString => []
  | String c r =>
      let n := code c in
      if n <? 128 then n :: encode r
      else 192 + n / 64 :: 128 + n mod 64 :: encode r
  end.

(** The double quote, for the prompts that contain one. *)
Definition dq : string := String (ascii_of_nat 34) EmptyString.

(** The line feed. *)
Definition nl : string := String (ascii_of_nat 10) EmptyString.

End PyStr.

(** ** [hashlib.md5] (RFC 1321) on 32-bit words held in [Z] *)

Module MD5.

Definition w32 (x : Z) : Z := x mod 2 ^ 32.
Definition add32 (x y : Z) : Z := w32 (x + y).
Definition not32 (x : Z) : Z := 2 ^ 32 - 1 - x.
Definition rotl32 (x n : Z) : Z :=
  w32 (Z.lor (Z.shiftl x n) (Z.shiftr x (32 - n))).

Definition K : list Z :=
  [ 3614090360; 3905402710; 606105819; 3250441966;
    4118548399; 1200080426; 2821735955; 4249261313;
    1770035416; 2336552879; 4294925233; 2304563134;
    1804603682; 4254626195; 2792965006; 1236535329;
    4129170786; 3225465664; 643717713; 3921069994;
    3593408605; 38016083; 3634488961; 3889429448;
    568446438; 3275163606; 4107603335; 1163531501;
    2850285829; 4243563512; 1735328473; 2368359562;
    4294588738; 2272392833; 1839030562; 4259657740;
    2763975236; 1272893353; 4139469664; 3200236656;
    681279174; 3936430074; 3572445317; 76029189;
    3654602809; 3873151461; 530742520; 3299628645;
    4096336452; 1126891415; 2878612391; 4237533241;
    1700485571; 2399980690; 4293915773; 2240044497;
    1873313359; 4264355552; 2734768916; 1309151649;
    4149444226; 3174756917; 718787259; 3951481745 ].

Definition shifts : list Z :=
  [ 7; 12; 17; 22; 7; 12; 17; 22; 7; 12; 17; 22; 7; 12; 17; 22;
    5; 9; 14; 20; 5; 9; 14; 20; 5; 9; 14; 20; 5; 9; 14; 20;
    4; 11; 16; 23; 4; 11; 16; 23; 4; 11; 16; 23; 4; 11; 16; 23;
    6; 10; 15; 21; 6; 10; 15; 21; 6; 10; 15; 21; 6; 10; 15; 21 ].

Definition nthZ (l : list Z) (i : Z) : Z := nth (Z.to_nat i) l 0.

(** Little-endian value of a list of bytes, and the [n] low bytes of a value. *)
Fixpoint le_combine (l : list Z) : Z :=
  match l with
  | [] => 0
  | b :: r => b + 256 * le_combine r
  end.

Fixpoint le_split (n : nat) (x : Z) : list Z :=
  match n with
  | O => []
  | S n' => x mod 256 :: le_split n' (x / 256)
  end.

(** Big-endian value of a list of bytes. *)
Definition be_combine (l : list Z) : Z :=
  fold_left (fun acc b => 256 * acc + b) l 0.

(** Message padding: a [0x80] byte, zero bytes up to 56 modulo 64, then the
    bit length on 8 bytes, low byte first. *)
Definition pad (msg : list Z) : list Z :=
  let len := Z.of_nat (List.length msg) in
  let zeros := Z.to_nat ((55 - len) mod 64) in
  msg ++ [128] ++ repeat 0 zeros ++ le_split 8 ((8 * len) mod 2 ^ 64).

(** The sixteen words of a 64-byte block. *)
Fixpoint words (n : nat) (blk : list Z) : list Z :=
  match n with
  | O => []
  | S n' => le_combine (firstn 4 blk) :: words n' (skipn 4 blk)
  end.

Record state := mkState { sA : Z; sB : Z; sC : Z; sD : Z }.

Definition init : state :=
  mkState 1732584193 4023233417 2562383102 271733878.

Definition step (M : list Z) (st : state) (i : Z) : state :=
  let '(mkState a b c d) := st in
  let '(f, g) :=
    if i <? 16 then (Z.lor (Z.land b c) (Z.land (not32 b) d), i)
    else if i <? 32 then (Z.lor (Z.land d b) (Z.land (not32 d) c), (5 * i + 1) mod 16)
    else if i <? 48 then (Z.lxor (Z.lxor b c) d, (3 * i + 5) mod 16)
    else (Z.lxor c (Z.lor b (not32 d)), (7 * i) mod 16) in
  let f' := add32 (add32 (add32 f a) (nthZ K i)) (nthZ M g) in
  mkState d (add32 b (rotl32 f' (nthZ shifts i))) b c.

Definition rounds : list Z := map Z.of_nat (seq 0 64).

Definition compress (st : state) (blk : list Z) : state :=
  let M := words 16 blk in
  let '(mkState a b c d) := fold_left (step M) rounds st in
  mkState (add32 (sA st) a) (add32 (sB st) b) (add32 (sC st) c) (add32 (sD st) d).

Fixpoint blocks (n : nat) (st : state) (bytes : list Z) : state :=
  match n with
  | O => st
  | S n' => blocks n' (compress st (firstn 64 bytes)) (skipn 64 bytes)
  end.

(** [hashlib.md5(msg).digest()] *)
Definition digest (msg : list Z) : list Z :=
  let p := pad msg in
  let st := blocks (List.length p / 64) init p in
  le_split 4 (sA st) ++ le_split 4 (sB st) ++ le_split 4 (sC st) ++ le_split 4 (sD st).

Definition hex_digit (n : Z) : ascii :=
  if n <? 10 then PyStr.chr (48 + n) else PyStr.chr (87 + n).

Fixpoint hex_of_bytes (l : list Z) : string :=
  match l with
  | [] => EmptyString
  | b :: r => String (hex_digit (b / 16)) (String (hex_digit (b mod 16)) (hex_of_bytes r))
  end.

(** [hashlib.md5(msg).hexdigest()] *)
Definition hexdigest (msg : list Z) : string := hex_of_bytes (digest msg).

(** [int(hashlib.md5(msg).hexdigest(), 16)] *)
Definition digest_int (msg : list Z) : Z := be_combine (digest msg).

End MD5.

(** ** binary64 values

    Floats are [spec_float] values at precision 53 and exponent bound 1024,
    with the IEEE 754 operations of the standard library's [SpecFloat]. *)

Module PyFloat.

Definition prec : Z := 53.
Definition emax : Z := 1024.

Definition of_Z (z : Z) : spec_float := binary_normalize prec emax z 0 false.

Definition add : spec_float -> spec_float -> spec_float := SFadd prec emax.
Definition sub : spec_float -> spec_float -> spec_float := SFsub prec emax.
Definition mul : spec_float -> spec_float -> spec_float := SFmul prec emax.
Definition div : spec_float -> spec_float -> spec_float := SFdiv prec emax.
Definition ltb : spec_float -> spec_float -> bool := SFltb.

(** The float literal with one decimal [t/10] ([3.5] is [tenths 35]): the
    double nearest to the decimal, which is the correctly rounded quotient. *)
Definition tenths (t : Z) : spec_float := div (of_Z t) (of_Z 10).

(** [k / 2**53] for [0 <= k < 2**53], the values [random.random()] takes. *)
Definition of_bits53 (k : Z) : spec_float := binary_normalize prec emax k (-53) false.

(** The integer nearest to [num/den], ties to the even one ([0 <= num], [0 < den]). *)
Definition round_half_even (num den : Z) : Z :=
  let q := num / den in
  match 2 * (num mod den) ?= den with
  | Lt => q
  | Gt => q + 1
  | Eq => if Z.even q then q else q + 1
  end.

(** [round(x, 1)]: the exact value of [x] rounded to the nearest multiple of
    one tenth, ties to even, then the double nearest to that decimal.  A float
    with a non-negative exponent is an integer and is returned as it is. *)
Definition round1 (x : spec_float) : spec_float :=
  match x with
  | S754_finite s m e =>
      if 0 <=? e then x
      else
        match round_half_even (10 * Zpos m) (2 ^ (- e)) with
        | Zpos t => div (S754_finite s t 0) (of_Z 10)
        | _ => S754_zero s
        end
  | _ => x
  end.

End PyFloat.

(** ** State passing

    The services read and write process-wide state (the module-level random
    generator, the model client) and act on the outside world; a computation
    over a state [S] is a function from the state to a result and a new state. *)

Module St.

Definition M (S A : Type) : Type := S -> A * S.

Definition ret {S A} (a : A) : M S A := fun s => (a, s).
Definition bind {S A B} (m : M S A) (k : A -> M S B) : M S B :=
  fun s => let (a, s') := m s in k a s'.
Definition get {S} : M S S := fun s => (s, s).
Definition put {S} (s : S) : M S unit := fun _ => (tt, s).

End St.

Declare Scope st_scope.
Delimit Scope st_scope with st.
Notation "x <- m ;; k" := (St.bind m (fun x => k))
  (at level 61, m at next level, right associativity) : st_scope.
Notation "m ;;; k" := (St.bind m (fun _ => k))
  (at level 61, right associativity) : st_scope.

(** ** The [random] module

    The module-level generator is one hidden [Random] instance.  Its core is
    kept abstract: [seed a] is the state [random.seed(a)] installs for a [str]
    [a], [randbelow n] is [Random._randbelow(n)] and [bits53] the 53-bit
    numerator of [Random.random()], with the ranges the library documents. *)

Module PyRandom.

Class Generator : Type := {
  rng : Type;
  seed : string -> rng;
  randbelow : Z -> rng -> Z * rng;
  bits53 : rng -> Z * rng;
  randbelow_range : forall n g, 0 < n -> 0 <= fst (randbelow n g) < n;
  bits53_range : forall g, 0 <= fst (bits53 g) < 2 ^ 53
}.

Section Draws.
Context {G : Generator}.
Local Open Scope st_scope.

Definition Rand (A : Type) : Type := St.M rng A.

(** [random.choice(seq)] on the non-empty sequence [x :: xs]:
    [seq[self._randbelow(len(seq))]]. *)
Definition choice {A} (x : A) (xs : list A) : Rand A :=
  i <- randbelow (Z.of_nat (List.length (x :: xs))) ;;
  St.ret (nth (Z.to_nat i) (x :: xs) x).

(** [random.random()] *)
Definition random : Rand spec_float :=
  k <- bits53 ;; St.ret (PyFloat.of_bits53 k).

(** [random.uniform(a, b)]: [a + (b - a) * self.random()]. *)
Definition uniform (a b : spec_float) : Rand spec_float :=
  r <- random ;; St.ret (PyFloat.add a (PyFloat.mul (PyFloat.sub b a) r)).

(** [random.randint(a, b)]: [a + self._randbelow(b + 1 - a)]. *)
Definition randint (a b : Z) : Rand Z :=
  k <- randbelow (b + 1 - a) ;; St.ret (a + k).

End Draws.

End PyRandom.

(** ** Python values

    What [json.loads] returns and what the services put in their result
    dictionaries.  A [PDict] lists its items in insertion order; a lookup
    takes the first item with the key. *)

Module Py.

#[local] Set Warnings "-register-all".

Inductive pyobj : Type :=
| PNone
| PBool (b : bool)
| PInt (z : Z)
| PFloat (f : spec_float)
| PStr (s : string)
| PList (l : list pyobj)
| PDict (d : list (string * pyobj)).

Fixpoint lookup {A} (k : string) (d : list (string * A)) : option A :=
  match d with
  | [] => None
  | (k', v) :: r => if String.eqb k k' then Some v else lookup k r
  end.

(** [item.get(k, default)]: only a [dict] has the method; [None] is the
    [AttributeError] any other value raises. *)
Definition get (item : pyobj) (k : string) (default : pyobj) : option pyobj :=
  match item with
  | PDict d => Some (match lookup k d with Some v => v | None => default end)
  | _ => None
  end.

(** The receiver of a [str] method ([encode], [replace]): [None] is the
    [AttributeError] a value of another type raises. *)
Definition as_str (v : pyobj) : option string :=
  match v with
  | PStr s => Some s
  | _ => None
  end.

(** The items [for item in data] visits; [None] is the [TypeError] of a value
    that is not iterable.  A [dict] yields its keys, a [str] its characters. *)
Definition iterate (data : pyobj) : option (list pyobj) :=
  match data with
  | PList l => Some l
  | PDict d => Some (map PStr (nodup string_dec (map fst d)))
  | PStr s => Some (map (fun c => PStr (String c EmptyString)) (list_ascii_of_string s))
  | _ => None
  end.

(** [if v:] on an optional string. *)
Definition truthy (v : option string) : bool :=
  match v with
  | Some (String _ _) => true
  | _ => false
  end.

End Py.

Export Py.

(** ** Request and response models *)

Module ScoutRequest.
Record t : Type := mk { industry : string; location : string; page : Z }.
End ScoutRequest.

Module VerifyEmailRequest.
Record t : Type := mk { email : string }.
End VerifyEmailRequest.

Module AnalyzeRequest.
Record t : Type := mk {
  business_name : string;
  industry : string;
  location : string;
  website : option string
}.
End AnalyzeRequest.

(** The dictionary both scout services build for a lead, key by key.  [id],
    [name] and [source_url] are built by string formatting on every path;
    [social_media] is a dictionary of strings; the other values are whatever
    the path puts there. *)
Module BusinessProfile.
Record t : Type := mk {
  id : string;
  name : string;
  industry : pyobj;
  location : pyobj;
  website : pyobj;
  phone : pyobj;
  email : pyobj;
  social_media : list (string * string);
  source_url : string;
  rating : pyobj;
  review_count : pyobj
}.
End BusinessProfile.

(** ** The outside world *)

(** The generative model client: [generate_content prompt] followed by reading
    [response.text] either raises, [inl msg] with [msg] the [str] of the
    exception, or yields the text of the reply.  The [generation_config]
    argument is the same constant at both call sites. *)
Class ModelClient : Type := {
  client : Type;
  generate_content : string -> client -> (string + string) * client
}.

(** What a run does to the outside: calls to [time.sleep] and to the model.
    Standard output is not modelled. *)
Inductive event : Type :=
| Sleep (seconds : pyobj)
| Generate (prompt : string).

(** ** The services of [main.py] *)

Module Services.
Import PyStr PyRandom.
Local Open Scope string_scope.
Local Open Scope Z_scope.
Local Open Scope st_scope.

Section Process.

(** The process: its random generator, its model client, the builtin
    [hash] on [str] (salted once per interpreter start, then fixed) and
    [json.loads], which raises ([inl msg]) or returns the decoded value. *)
Context {G : Generator} {C : ModelClient}.
Variable hash : string -> Z.
Variable json_loads : string -> string + pyobj.

(** The state a request runs in: the state of the module [random], the global
    [model] ([None] when no API key is configured) and the trace of events. *)
Record world : Type := mkWorld {
  w_random : rng;
  model : option client;
  trace : list event
}.

Definition IO (A : Type) : Type := St.M world A.

Definition emit (e : event) : IO unit :=
  fun w => (tt, mkWorld (w_random w) (model w) (trace w ++ [e])).

(** [time.sleep(d)] *)
Definition sleep (d : pyobj) : IO unit := emit (Sleep d).

(** [random.seed(a)] *)
Definition random_seed (a : string) : IO unit :=
  fun w => (tt, mkWorld (seed a) (model w) (trace w)).

(** A draw from the module-level generator. *)
Definition draw {A} (m : Rand A) : IO A :=
  fun w => let (a, g) := m (w_random w) in (a, mkWorld g (model w) (trace w)).

(** [model.generate_content(prompt, ...)] and [response.text]; on a [model]
    that is [None] the attribute access raises. *)
Definition call_model (prompt : string) : IO (string + string) :=
  fun w =>
    match model w with
    | Some c =>
        let (r, c') := generate_content prompt c in
        (r, mkWorld (w_random w) (Some c') (trace w ++ [Generate prompt]))
    | None => (inl "'NoneType' object has no attribute 'generate_content'", w)
    end.

(** *** [mock_scout_service] *)

Definition base_names : list string :=
  ["Apex"; "Elite"; "Prime"; "Cornerstone"; "Trusted"; "Summit"; "Vanguard";
   "Pinnacle"; "NextLevel"; "Local"].

Definition suffixes : list string :=
  ["Solutions"; "Services"; "Inc"; "Co"; "Group"; "Partners"; "Associates"; "Pros"].

(** [random.choice([True, False, False, False, False])] *)
Definition has_site_draw : Rand bool := choice true [false; false; false; false].

(** [f"https://www.google.com/search?q={name.replace(' ', '+')}+{location.replace(' ', '+')}"] *)
Definition search_url (name location : string) : string :=
  "https://www.google.com/search?q=" ++ replace_space "+" name ++ "+"
  ++ replace_space "+" location.

(** One turn of the loop of [mock_scout_service]: the draws in program order
    and the dictionary appended to [results]. *)
Definition mock_profile (industry location : string) (page : Z)
  : Rand BusinessProfile.t :=
  has_site <- has_site_draw ;;
  base <- choice "Apex" (tl base_names) ;;
  suffix <- choice "Solutions" (tl suffixes) ;;
  let name := base ++ " " ++ capitalize industry ++ " " ++ suffix in
  let name := if page >? 1 then name ++ " " ++ str_of_int page else name in
  let sanitized := lower (replace_space "" name) in
  let email :=
    if has_site then "contact@" ++ lower base ++ lower industry ++ ".com"
    else sanitized ++ "@gmail.com" in
  r1 <- random ;;
  let socials :=
    if PyFloat.ltb (PyFloat.tenths 3) r1
    then [("linkedin", "https://linkedin.com/company/" ++ sanitized)] else [] in
  r2 <- random ;;
  let socials :=
    if PyFloat.ltb (PyFloat.tenths 6) r2
    then app socials [("twitter", "https://twitter.com/" ++ sanitized)]
    else socials in
  r3 <- random ;;
  let socials :=
    if PyFloat.ltb (PyFloat.tenths 6) r3
    then app socials [("facebook", "https://facebook.com/" ++ sanitized)]
    else socials in
  let source_url := search_url name location in
  u <- uniform (PyFloat.tenths 35) (PyFloat.tenths 49) ;;
  let rating := PyFloat.round1 u in
  review_count <- randint 10 500 ;;
  p1 <- randint 100 999 ;;
  p2 <- randint 1000 9999 ;;
  St.ret (BusinessProfile.mk
    ("biz_" ++ str_of_int (hash name))
    name
    (PStr industry)
    (PStr location)
    (if has_site then PStr ("www." ++ lower base ++ lower industry ++ ".com") else PNone)
    (PStr ("(555) " ++ str_of_int p1 ++ "-" ++ str_of_int p2))
    (PStr email)
    socials
    source_url
    (PFloat rating)
    (PInt review_count)).

(** [for i in range(n): ... results.append({...})] *)
Fixpoint mock_loop (n : nat) (industry location : string) (page : Z)
    (results : list BusinessProfile.t) : Rand (list BusinessProfile.t) :=
  match n with
  | O => St.ret results
  | S n' =>
      p <- mock_profile industry location page ;;
      mock_loop n' industry location page (app results [p])
  end.

(** The state of the generator at the start of turn [k] of the loop, when the
    loop starts in state [g]. *)
Fixpoint turn_state (k : nat) (industry location : string) (page : Z) (g : rng)
  : rng :=
  match k with
  | O => g
  | S k' =>
      turn_state k' industry location page
        (snd (mock_profile industry location page g))
  end.

Definition mock_scout_service (industry location : string) (page : Z)
  : IO (list BusinessProfile.t) :=
  sleep (PFloat (PyFloat.of_Z 1)) ;;;
  random_seed (industry ++ location ++ str_of_int page) ;;;
  draw (mock_loop 10 industry location page []).

(** *** [ai_scout_service] *)

Definition scout_prompt (industry location : string) (page : Z) : string :=
  nl
  ++ "    You are a business intelligence agent." ++ nl
  ++ "    Task: List 10 REAL existing businesses for the industry '" ++ industry ++ "' in '" ++ location ++ "' that likely DO NOT have a website or have a low digital presence." ++ nl
  ++ "    This is for a CRM demo. If exact real data is unavailable, generate highly plausible realistic examples." ++ nl
  ++ "    " ++ nl
  ++ "    CRITERIA:" ++ nl
  ++ "    1. Prioritize businesses without a website." ++ nl
  ++ "    2. Include their estimated Google Maps rating and review count." ++ nl
  ++ "    " ++ nl
  ++ "    Page " ++ str_of_int page ++ " of results." ++ nl
  ++ "    " ++ nl
  ++ "    Return a JSON array of objects with these exact keys:" ++ nl
  ++ "    - name (Business Name)" ++ nl
  ++ "    - industry (The industry)" ++ nl
  ++ "    - location (City, State)" ++ nl
  ++ "    - website (URL or null)" ++ nl
  ++ "    - phone (Phone number)" ++ nl
  ++ "    - email (Public contact email or null)" ++ nl
  ++ "    - rating (Float, e.g. 4.5)" ++ nl
  ++ "    - review_count (Integer)" ++ nl
  ++ "    " ++ nl
  ++ "    JSON ONLY. No markdown formatting." ++ nl
  ++ "    ".

(** Failure inside the [try] block of [ai_scout_service]: [None] is a raised
    exception. *)
Definition obind {A B} (m : option A) (k : A -> option B) : option B :=
  match m with
  | Some a => k a
  | None => None
  end.

(** The body of [for item in data].  [str.encode] raises
    [UnicodeEncodeError] on a lone surrogate, which [json.loads] lets through
    from an escape; no [string] holds one, so that exception has no
    counterpart here, and what is stated below about an item that goes through
    is stated of such an item, or of a name of ASCII characters. *)
Definition ai_profile (industry location : string) (item : pyobj)
  : option BusinessProfile.t :=
  obind (get item "name" (PStr "")) (fun raw =>
  obind (as_str raw) (fun hashed =>
  let item_id := "biz_" ++ substring 0 10 (MD5.hexdigest (encode hashed)) in
  obind (get item "name" (PStr "Unknown")) (fun name_value =>
  obind (as_str name_value) (fun name =>
  let source_url := search_url name location in
  let sanitized := lower (replace_space "" name) in
  let socials :=
    [("linkedin", "https://linkedin.com/company/" ++ sanitized);
     ("twitter", "https://twitter.com/" ++ sanitized)] in
  obind (get item "industry" (PStr industry)) (fun industry_value =>
  obind (get item "location" (PStr location)) (fun location_value =>
  obind (get item "website" PNone) (fun website_value =>
  obind (get item "phone" (PStr "N/A")) (fun phone_value =>
  obind (get item "email" PNone) (fun email_value =>
  obind (get item "rating" PNone) (fun rating_value =>
  obind (get item "review_count" PNone) (fun review_count_value =>
  Some (BusinessProfile.mk item_id name industry_value location_value
          website_value phone_value email_value socials source_url
          rating_value review_count_value)))))))))))).

(** The loop over the items, from first to last; it stops at the first
    exception. *)
Fixpoint ai_loop (industry location : string) (items : list pyobj)
    (results : list BusinessProfile.t) : option (list BusinessProfile.t) :=
  match items with
  | [] => Some results
  | item :: rest =>
      obind (ai_profile industry location item) (fun p =>
      ai_loop industry location rest (app results [p]))
  end.

(** The statements of the [try] block after the model call. *)
Definition ai_results (industry location : string) (reply : string + string)
  : option (list BusinessProfile.t) :=
  match reply with
  | inl _ => None
  | inr text =>
      match json_loads text with
      | inl _ => None
      | inr data =>
          obind (iterate data) (fun items => ai_loop industry location items [])
      end
  end.

Definition ai_scout_service (industry location : string) (page : Z)
  : IO (list BusinessProfile.t) :=
  fun w =>
    match model w with
    | None => mock_scout_service industry location page w
    | Some _ =>
        (reply <- call_model (scout_prompt industry location page) ;;
         match ai_results industry location reply with
         | Some results => St.ret results
         | None => mock_scout_service industry location page
         end) w
    end.

(** *** [generate_audit_and_message] *)

Definition no_key_result : pyobj :=
  PDict
    [("audit_score", PInt 45);
     ("pain_points",
      PList [PStr "No API Key Detected"; PStr "Cannot analyze real data";
             PStr "Please set GEMINI_API_KEY"]);
     ("improvements", PList [PStr "Add API Key to backend"; PStr "Restart server"]);
     ("outreach_message", PStr "System Error: Please configure the AI backend.")].

Definition rate_limit_result : pyobj :=
  PDict
    [("audit_score", PInt 0);
     ("pain_points", PList [PStr "Rate Limit Hit"]);
     ("improvements", PList [PStr "Wait 60 seconds"; PStr "Try again"]);
     ("outreach_message",
      PStr "Google Gemini API Rate Limit Exceeded. Please wait a minute and try again.")].

Definition error_result : pyobj :=
  PDict
    [("audit_score", PInt 0);
     ("pain_points", PList [PStr "AI Error"]);
     ("improvements", PList [PStr "Check console logs"]);
     ("outreach_message", PStr "Error generating message.")].

Definition website_status (data : AnalyzeRequest.t) : string :=
  match AnalyzeRequest.website data with
  | Some (String c r) => "They currently have a website: " ++ String c r
  | _ => "They currently DO NOT have a website."
  end.

Definition audit_prompt (data : AnalyzeRequest.t) : string :=
  nl
  ++ "    Act as a Digital Marketing Consultant." ++ nl
  ++ "    Target: " ++ AnalyzeRequest.business_name data ++ " (" ++ AnalyzeRequest.industry data ++ ") in " ++ AnalyzeRequest.location data ++ "." ++ nl
  ++ "    Status: " ++ website_status data ++ nl
  ++ "    " ++ nl
  ++ "    1. Audit:" ++ nl
  ++ "    - Score (0-100). If no website, max 30." ++ nl
  ++ "    - 3 Pain Points (concise)." ++ nl
  ++ "    - 3 Improvements we can offer." ++ nl
  ++ "    " ++ nl
  ++ "    2. Outreach:" ++ nl
  ++ "    - Write a short, punchy cold email." ++ nl
  ++ "    - Subject line included." ++ nl
  ++ "    " ++ nl
  ++ "    Return JSON:" ++ nl
  ++ "    {" ++ nl
  ++ "        " ++ dq ++ "audit_score" ++ dq ++ ": int," ++ nl
  ++ "        " ++ dq ++ "pain_points" ++ dq ++ ": [str]," ++ nl
  ++ "        " ++ dq ++ "improvements" ++ dq ++ ": [str]," ++ nl
  ++ "        " ++ dq ++ "outreach_message" ++ dq ++ ": str" ++ nl
  ++ "    }" ++ nl
  ++ "    ".

Definition max_retries : Z := 3.
Definition retry_delay : Z := 60.

(** [range(n)] *)
Definition range (n : Z) : list Z := map Z.of_nat (seq 0 (Z.to_nat n)).

(** The [try] block of an attempt after the model call:
    [json.loads(response.text)]. *)
Definition parse_reply (reply : string + string) : string + pyobj :=
  match reply with
  | inl msg => inl msg
  | inr text => json_loads text
  end.

(** ["429" in str(e) or "Quota exceeded" in str(e)] *)
Definition is_rate_limit (msg : string) : bool :=
  contains "429" msg || contains "Quota exceeded" msg.

(** [for attempt in range(max_retries): ...]; a loop that runs out of
    attempts falls off the end of the function, which returns [None]. *)
Fixpoint audit_loop (attempts : list Z) (prompt : string) : IO pyobj :=
  match attempts with
  | [] => St.ret PNone
  | attempt :: rest =>
      reply <- call_model prompt ;;
      match parse_reply reply with
      | inr result => St.ret result
      | inl msg =>
          if is_rate_limit msg then
            if attempt <? max_retries - 1 then
              sleep (PInt retry_delay) ;;; audit_loop rest prompt
            else St.ret rate_limit_result
          else St.ret error_result
      end
  end.

(** The client after [n] attempts in a row that each fail with a rate-limit
    error; [None] when one of them does not. *)
Fixpoint rate_limited (n : nat) (prompt : string) (c : client) : option client :=
  match n with
  | O => Some c
  | S n' =>
      let (reply, c') := generate_content prompt c in
      match parse_reply reply with
      | inl msg => if is_rate_limit msg then rate_limited n' prompt c' else None
      | inr _ => None
      end
  end.

(** The events of [n] attempts that were each followed by a retry. *)
Definition retries (n : nat) (prompt : string) : list event :=
  List.concat (repeat [Generate prompt; Sleep (PInt retry_delay)] n).

(** [result[k]] on a result that is a dictionary with the key. *)
Definition field (k : string) (result : pyobj) : option pyobj :=
  match result with
  | PDict d => lookup k d
  | _ => None
  end.

Definition generate_audit_and_message (data : AnalyzeRequest.t) : IO pyobj :=
  fun w =>
    match model w with
    | None => St.ret no_key_result w
    | Some _ => audit_loop (range max_retries) (audit_prompt data) w
    end.

(** *** Endpoints *)

Definition scout (request : ScoutRequest.t) : IO (list BusinessProfile.t) :=
  ai_scout_service (ScoutRequest.industry request) (ScoutRequest.location request)
    (ScoutRequest.page request).

Definition analyze (request : AnalyzeRequest.t) : IO pyobj :=
  generate_audit_and_message request.

(** The value under ["status"] in the reply of [verify_email]. *)
Definition verify_status (email : string) : string :=
  let email := strip (lower email) in
  let h := MD5.digest_int (encode email) in
  if h mod 5 =? 0 then "invalid" else "valid".


End Process.
End Services.

(** ** Test doubles

    A concrete process to run the services on: a linear congruential
    generator behind the [random] interface, a model client that plays a
    script of replies, a [hash] and a [json.loads] restricted to the reply
    texts the examples use. *)

Module Fake.
Import PyStr.
Local Open Scope string_scope.
Local Open Scope Z_scope.

Definition lcg_next (g : Z) : Z :=
  (6364136223846793005 * g + 1442695040888963407) mod 2 ^ 64.

Definition lcg_seed (a : string) : Z := MD5.digest_int (encode a) mod 2 ^ 64.

Definition lcg_randbelow (n g : Z) : Z * Z := ((g / 2 ^ 11) mod n, lcg_next g).

Definition lcg_bits53 (g : Z) : Z * Z := ((g / 2 ^ 11) mod 2 ^ 53, lcg_next g).

Lemma lcg_randbelow_range n g : 0 < n -> 0 <= fst (lcg_randbelow n g) < n.
Proof. intros Hn. apply Z.mod_pos_bound. exact Hn. Defined.

Lemma lcg_bits53_range g : 0 <= fst (lcg_bits53 g) < 2 ^ 53.
Proof. apply Z.mod_pos_bound. reflexivity. Defined.

Definition lcg : PyRandom.Generator := {|
  PyRandom.rng := Z;
  PyRandom.seed := lcg_seed;
  PyRandom.randbelow := lcg_randbelow;
  PyRandom.bits53 := lcg_bits53;
  PyRandom.randbelow_range := lcg_randbelow_range;
  PyRandom.bits53_range := lcg_bits53_range
|}.

(** A client that answers the calls with the replies of a script, in order,
    and raises once the script is over. *)
Definition scripted_generate (prompt : string) (script : list (string + string))
  : (string + string) * list (string + string) :=
  match script with
  | reply :: rest => (reply, rest)
  | [] => (inl "503 Service Unavailable", [])
  end.

Definition scripted : ModelClient := {|
  client := list (string + string);
  generate_content := scripted_generate
|}.

Definition hash (s : string) : Z := MD5.digest_int (encode s) mod 2 ^ 61.

(** Reply texts and what [json.loads] makes of them. *)
Definition text_empty_array : string := "[]".
Definition text_nameless_item : string := "[{}]".
Definition text_unknown_item : string :=
  "[{" ++ dq ++ "name" ++ dq ++ ": " ++ dq ++ "Unknown" ++ dq ++ "}]".
Definition text_score_150 : string :=
  "{" ++ dq ++ "audit_score" ++ dq ++ ": 150, "
      ++ dq ++ "pain_points" ++ dq ++ ": [], "
      ++ dq ++ "improvements" ++ dq ++ ": [], "
      ++ dq ++ "outreach_message" ++ dq ++ ": " ++ dq ++ "Hi" ++ dq ++ "}".

Definition json_loads (text : string) : string + pyobj :=
  if String.eqb text text_empty_array then inr (PList [])
  else if String.eqb text text_nameless_item then inr (PList [PDict []])
  else if String.eqb text text_unknown_item
       then inr (PList [PDict [("name", PStr "Unknown")]])
  else if String.eqb text text_score_150
       then inr (PDict [("audit_score", PInt 150); ("pain_points", PList []);
                        ("improvements", PList []); ("outreach_message", PStr "Hi")])
  else inl "Expecting value: line 1 column 1 (char 0)".

(** A world with the generator in state [0], an empty trace and the given model. *)
Definition world0 (m : option (list (string + string)))
  : @Services.world lcg scripted :=
  @Services.mkWorld lcg scripted 0 m [].

Definition plumbing_request : ScoutRequest.t :=
  ScoutRequest.mk "plumbing" "Austin, TX" 1.

Definition bakery_request : AnalyzeRequest.t :=
  AnalyzeRequest.mk "Corner Bakery" "bakery" "Austin, TX" None.

(** The services of this process. *)
Definition mock_scout_service := @Services.mock_scout_service lcg scripted hash.
Definition ai_scout_service := @Services.ai_scout_service lcg scripted hash json_loads.
Definition scout := @Services.scout lcg scripted hash json_loads.
Definition analyze := @Services.analyze lcg scripted json_loads.

End Fake.

(** ** Observations on text

    Tests on strings the properties are stated with, and [int(s, 16)]. *)

Module PyText.
Import PyStr.
Local Open Scope string_scope.
Local Open Scope Z_scope.

(** [c in s] for a character [c]. *)
Fixpoint mem (c : ascii) (s : string) : bool :=
  match s with
  | EmptyString => false
  | String a r => Ascii.eqb c a || mem c r
  end.

(** [all(f(c) for c in s)] *)
Fixpoint all_chars (f : ascii -> bool) (s : string) : bool :=
  match s with
  | EmptyString => true
  | String c r => f c && all_chars f r
  end.

(** [c in "0123456789abcdef"] *)
Definition is_hex_digit (c : ascii) : bool :=
  let n := code c in ((48 <=? n) && (n <=? 57)) || ((97 <=? n) && (n <=? 102)).

Definition hex_value (c : ascii) : option Z :=
  let n := code c in
  if (48 <=? n) && (n <=? 57) then Some (n - 48)
  else if (97 <=? n) && (n <=? 102) then Some (n - 87)
  else if (65 <=? n) && (n <=? 70) then Some (n - 55)
  else None.

Fixpoint int16_from (acc : Z) (s : string) : option Z :=
  match s with
  | EmptyString => Some acc
  | String c r =>
      match hex_value c with
      | Some v => int16_from (16 * acc + v) r
      | None => None
      end
  end.

(** [int(s, 16)] on a non-empty string of hexadecimal digits, which is what
    [verify_email] passes; signs, prefixes, underscores and surrounding
    whitespace, which [int] also reads, are outside this definition and give
    [None], as a string that [int] rejects does. *)
Definition int16 (s : string) : option Z :=
  match s with
  | EmptyString => None
  | _ => int16_from 0 s
  end.

(** [s.split(" ")[-1]]: what follows the last space of [s]. *)
Fixpoint last_word (s : string) : string :=
  match s with
  | EmptyString => EmptyString
  | String c r => if mem " " s then last_word r else s
  end.

(** A list of values that are bytes. *)
Definition byte_list (l : list Z) : Prop := Forall (fun b => 0 <= b < 256) l.

End PyText.

(** ** Parts of the dictionaries the services build *)

Module Shapes.
Import PyStr.
Local Open Scope string_scope.
Local Open Scope Z_scope.

(** The name [mock_scout_service] composes from a base name and a suffix. *)
Definition mock_name (industry : string) (page : Z) (base suffix : string) : string :=
  let name := base ++ " " ++ capitalize industry ++ " " ++ suffix in
  if page >? 1 then name ++ " " ++ str_of_int page else name.

(** [name.replace(" ", "").lower()] *)
Definition sanitize (name : string) : string := lower (replace_space "" name).

(** The [socials] dictionary of [mock_scout_service], given which of the three
    tests passed. *)
Definition mock_socials (sanitized : string) (linkedin twitter facebook : bool)
  : list (string * string) :=
  app (if linkedin then [("linkedin", "https://linkedin.com/company/" ++ sanitized)] else [])
   (app (if twitter then [("twitter", "https://twitter.com/" ++ sanitized)] else [])
        (if facebook then [("facebook", "https://facebook.com/" ++ sanitized)] else [])).

(** [d.get(k, default)] on the items [d] of a dictionary. *)
Definition dict_value (d : list (string * pyobj)) (k : string) (default : pyobj) : pyobj :=
  match lookup k d with
  | Some v => v
  | None => default
  end.

(** The keys of an item the loop of [ai_scout_service] reads. *)
Definition item_keys : list string :=
  ["name"; "industry"; "location"; "website"; "phone"; "email"; "rating"; "review_count"].

End Shapes.

Local Open Scope string_scope.
Local Open Scope Z_scope.

(** Test vectors of RFC 1321, section A.5. *)
Example md5_empty :
  MD5.hexdigest (PyStr.encode "") = "d41d8cd98f00b204e9800998ecf8427e".
Proof. vm_compute. reflexivity. Qed.

Example md5_abc :
  MD5.hexdigest (PyStr.encode "abc") = "900150983cd24fb0d6963f7d28e17f72".
Proof. vm_compute. reflexivity. Qed.

Example md5_message_digest :
  MD5.hexdigest (PyStr.encode "message digest") = "f96b697d7cb7938d525a2f31aaf161d0".
Proof. vm_compute. reflexivity. Qed.

Example md5_two_blocks :
  MD5.hexdigest (PyStr.encode
    "12345678901234567890123456789012345678901234567890123456789012345678901234567890")
  = "57edf4a22be3c955ac49da2e2107b67a".
Proof. vm_compute. reflexivity. Qed.

Example str_of_int_examples :
  PyStr.str_of_int 0 = "0" /\ PyStr.str_of_int 42 = "42" /\ PyStr.str_of_int (-7) = "-7".
Proof. vm_compute. repeat split. Qed.

Example strip_example :
  PyStr.strip "  A b  " = "A b" /\ PyStr.strip "   " = "" /\
  PyStr.capitalize "pLUMBING co" = "Plumbing co" /\
  PyStr.replace_space "+" "Austin, TX" = "Austin,+TX" /\
  PyStr.contains "429" "HTTP 429 Too Many" = true /\
  PyStr.contains "429" "HTTP 42" = false.
Proof. vm_compute. repeat split. Qed.

(** Beyond ASCII: ['ABC\xa0'.lower().strip() == 'abc'],
    ['\xc0b\x85'.lower().strip() == '\xe0b'], ['\xdf'.encode() == b'\xc3\x9f'],
    ['\xdf'.upper() == 'SS'], ['\xdf'.lower() == '\xdf'],
    ['\xe9COLE'.capitalize() == '\xc9cole'], ['\xd7\xf7'.lower() == '\xd7\xf7'],
    and the MD5 digests of ['\xe0b'] and ['\xdf']. *)
Example latin1_examples :
  PyStr.strip (PyStr.lower (String.append "ABC" (String (PyStr.chr 160) "")))
  = "abc" /\
  PyStr.strip (PyStr.lower (String (PyStr.chr 192) (String "b" (String (PyStr.chr 133) ""))))
  = String (PyStr.chr 224) "b" /\
  PyStr.encode (String (PyStr.chr 223) "") = [195; 159] /\
  PyStr.upper (String (PyStr.chr 223) "") = "SS" /\
  PyStr.lower (String (PyStr.chr 223) "") = String (PyStr.chr 223) "" /\
  PyStr.capitalize (String (PyStr.chr 233) "COLE") = String (PyStr.chr 201) "cole" /\
  PyStr.lower (String (PyStr.chr 215) (String (PyStr.chr 247) ""))
  = String (PyStr.chr 215) (String (PyStr.chr 247) "") /\
  MD5.hexdigest (PyStr.encode (String (PyStr.chr 224) "b"))
  = "85931c34ce612db6d731e105d3230383" /\
  MD5.hexdigest (PyStr.encode (String (PyStr.chr 223) ""))
  = "e11ce22edb052b40813b1e145b704775".
Proof. vm_compute. repeat split. Qed.

(** [verify_email] on ['ABC\xa0'], ['\xdf'] and ['SS']. *)
Example verify_status_latin1 :
  Services.verify_status (String.append "ABC" (String (PyStr.chr 160) "")) = "invalid" /\
  Services.verify_status (String (PyStr.chr 223) "") = "invalid" /\
  Services.verify_status "SS" = "valid".
Proof. vm_compute. repeat split. Qed.

Example float_literals :
  PyFloat.tenths 35 = S754_finite false 7881299347898368 (-51) /\
  PyFloat.tenths 49 = S754_finite false 5516909543528858 (-50) /\
  PyFloat.tenths 3 = S754_finite false 5404319552844595 (-54) /\
  PyFloat.tenths 6 = S754_finite false 5404319552844595 (-53) /\
  PyFloat.sub (PyFloat.tenths 49) (PyFloat.tenths 35)
    = S754_finite false 6305039478318696 (-52).
Proof. vm_compute. repeat split. Qed.

(** [round(4.85, 1) == 4.8], [round(3.45, 1) == 3.5], [round(0.25, 1) == 0.2],
    [round(4.95, 1) == 5.0], [round(0.04, 1) == 0.0], [round(12345.678, 1) == 12345.7]. *)
Example round1_examples :
  PyFloat.round1 (S754_finite false 5460614548186726 (-50)) = PyFloat.tenths 48 /\
  PyFloat.round1 (S754_finite false 7768709357214106 (-51)) = PyFloat.tenths 35 /\
  PyFloat.round1 (S754_finite false 4503599627370496 (-54)) = PyFloat.tenths 2 /\
  PyFloat.round1 (S754_finite false 5573204538870989 (-50)) = PyFloat.of_Z 5 /\
  PyFloat.round1 (S754_finite false 5764607523034235 (-57)) = S754_zero false /\
  PyFloat.round1 (S754_finite false 6787108256889176 (-39))
    = S754_finite false 6787120351517082 (-39).
Proof. vm_compute. repeat split. Qed.

(** [3.5 + (4.9 - 3.5) * r] and its rounding at [r = 123456789 / 2**53],
    [r = 1/2] and [r = 1 - 2**-53]. *)
Example uniform_examples :
  let u k := PyFloat.add (PyFloat.tenths 35)
               (PyFloat.mul (PyFloat.sub (PyFloat.tenths 49) (PyFloat.tenths 35))
                            (PyFloat.of_bits53 k)) in
  u 123456789 = S754_finite false 7881299391108244 (-51) /\
  PyFloat.round1 (u 123456789) = PyFloat.tenths 35 /\
  u (2 ^ 52) = S754_finite false 4728779608739021 (-50) /\
  PyFloat.round1 (u (2 ^ 52)) = S754_finite false 4728779608739021 (-50) /\
  u (2 ^ 53 - 1) = PyFloat.tenths 49.
Proof. vm_compute. repeat split. Qed.

(** * Properties *)

Import PyStr PyRandom Services.

(** ** binary64 rounding

    Bounds on what [SpecFloat]'s rounding returns, then the range of
    [round(random.uniform(3.5, 4.9), 1)]. *)

Section Binary64.

Lemma digits2_pos_bounds (m : positive) :
  2 ^ (Zpos (digits2_pos m) - 1) <= Zpos m < 2 ^ Zpos (digits2_pos m).
Proof.
  induction m as [m IH|m IH|]; cbn [digits2_pos].
  - rewrite Pos2Z.inj_succ, Z.pow_succ_r by lia.
    replace (Z.succ (Zpos (digits2_pos m)) - 1) with (Z.succ (Zpos (digits2_pos m) - 1)) by lia.
    rewrite Z.pow_succ_r by lia. lia.
  - rewrite Pos2Z.inj_succ, Z.pow_succ_r by lia.
    replace (Z.succ (Zpos (digits2_pos m)) - 1) with (Z.succ (Zpos (digits2_pos m) - 1)) by lia.
    rewrite Z.pow_succ_r by lia. lia.
  - cbn. lia.
Qed.

Lemma digits2_pos_unique (m : positive) (n : Z) :
  2 ^ (n - 1) <= Zpos m < 2 ^ n -> Zpos (digits2_pos m) = n.
Proof.
  intros [Hlo Hhi]. pose proof (digits2_pos_bounds m) as [Dlo Dhi].
  assert (Hn : 0 <= n).
  { destruct (Z.lt_ge_cases n 0) as [Hneg|]; [|assumption].
    rewrite (Z.pow_neg_r 2 n) in Hhi by assumption. lia. }
  set (d := Zpos (digits2_pos m)) in *.
  assert (d - 1 < n).
  { apply (Z.pow_lt_mono_r_iff 2); lia. }
  assert (n - 1 < d).
  { apply (Z.pow_lt_mono_r_iff 2); lia. }
  lia.
Qed.

Lemma shr_1_m mrs : 0 <= shr_m mrs -> shr_m (shr_1 mrs) = shr_m mrs / 2.
Proof.
  destruct mrs as [m r s]. cbn [shr_m]. intros Hm.
  destruct m as [|p|p]; [reflexivity| |lia].
  destruct p as [p|p|]; cbn [shr_1 shr_m].
  - rewrite Pos2Z.inj_xI. apply (Z.div_unique _ 2 _ 1); lia.
  - rewrite Pos2Z.inj_xO. apply (Z.div_unique _ 2 _ 0); lia.
  - reflexivity.
Qed.

Lemma shr_iter_m p : forall mrs,
  0 <= shr_m mrs -> shr_m (iter_pos shr_1 p mrs) = shr_m mrs / 2 ^ Zpos p.
Proof.
  induction p as [p IH|p IH|]; intros mrs Hm; cbn [iter_pos].
  - assert (H1 : 0 <= shr_m (shr_1 mrs)).
    { rewrite shr_1_m by assumption. apply Z.div_pos; lia. }
    assert (H2 : 0 <= shr_m (iter_pos shr_1 p (shr_1 mrs))).
    { rewrite IH by assumption. apply Z.div_pos; lia. }
    rewrite IH, IH, shr_1_m by assumption.
    rewrite !Z.div_div by lia.
    replace (Zpos p~1) with (1 + Zpos p + Zpos p) by lia.
    rewrite !Z.pow_add_r by lia. f_equal. ring.
  - assert (H2 : 0 <= shr_m (iter_pos shr_1 p mrs)).
    { rewrite IH by assumption. apply Z.div_pos; lia. }
    rewrite IH, IH by assumption.
    rewrite Z.div_div by lia.
    replace (Zpos p~0) with (Zpos p + Zpos p) by lia.
    rewrite Z.pow_add_r by lia. reflexivity.
  - rewrite shr_1_m by assumption. reflexivity.
Qed.


Lemma shr_fexp_exact (m e : Z) :
  0 < m ->
  exists mrs,
    shr_fexp 53 1024 m e loc_Exact
      = (mrs, e + Z.max 0 (fexp 53 1024 (Zdigits2 m + e) - e)) /\
    shr_m mrs = m / 2 ^ Z.max 0 (fexp 53 1024 (Zdigits2 m + e) - e).
Proof.
  intros Hm. unfold shr_fexp, shr. cbn [shr_record_of_loc].
  destruct (fexp 53 1024 (Zdigits2 m + e) - e) as [|p|p] eqn:Hn.
  - eexists; split; [f_equal; lia|]. cbn [shr_m]. now rewrite Z.div_1_r.
  - eexists; split; [f_equal; lia|].
    rewrite shr_iter_m by (cbn [shr_m]; lia). reflexivity.
  - eexists; split; [f_equal; lia|]. cbn [shr_m]. now rewrite Z.div_1_r.
Qed.

Lemma round_nearest_even_bounds m l :
  m <= round_nearest_even m l <= m + 1.
Proof.
  unfold round_nearest_even.
  destruct l as [|[| |]]; try destruct (Z.even m); lia.
Qed.

Lemma fexp_normal x : -1074 <= x - 53 -> fexp 53 1024 x = x - 53.
Proof. unfold fexp, emin. lia. Qed.

(** Rounding an exact positive mantissa of at least 53 digits: the result is a
    normal float within a relative distance [2^-52] of the operand. *)
Lemma binary_round_aux_bounds (m : positive) (ex : Z) :
  53 <= Zpos (digits2_pos m) ->
  -1074 <= ex + Zpos (digits2_pos m) - 53 ->
  ex + Zpos (digits2_pos m) <= 1023 ->
  exists m' e',
    binary_round_aux 53 1024 false (Zpos m) ex loc_Exact = S754_finite false m' e' /\
    ex <= e' <= ex + Zpos (digits2_pos m) - 52 /\
    2 ^ 52 <= Zpos m' < 2 ^ 53 /\
    2 ^ 52 * (Zpos m - Zpos m' * 2 ^ (e' - ex)) < Zpos m /\
    2 ^ 52 * (Zpos m' * 2 ^ (e' - ex) - Zpos m) <= Zpos m.
Proof.
  intros Hd Hlo Hhi.
  pose proof (digits2_pos_bounds m) as [Dlo Dhi].
  set (d := Zpos (digits2_pos m)) in *.
  set (s := d - 53).
  assert (Hs : 0 <= s) by (unfold s; lia).
  assert (Hpow : 2 ^ (d - 1) = 2 ^ 52 * 2 ^ s).
  { replace (d - 1) with (52 + s) by (unfold s; lia). now rewrite Z.pow_add_r by lia. }
  assert (Hpow' : 2 ^ d = 2 ^ 53 * 2 ^ s).
  { replace d with (53 + s) at 1 by (unfold s; lia). now rewrite Z.pow_add_r by lia. }
  assert (HS : 0 < 2 ^ s) by (apply Z.pow_pos_nonneg; lia).
  unfold binary_round_aux.
  destruct (shr_fexp_exact (Zpos m) ex) as (mrs1 & E1 & M1); [lia|].
  cbn [Zdigits2] in E1, M1. fold d in E1, M1.
  rewrite fexp_normal in E1, M1 by lia.
  replace (Z.max 0 (d + ex - 53 - ex)) with s in E1, M1 by (unfold s; lia).
  rewrite E1.
  set (m1 := shr_m mrs1) in *.
  pose proof (Z.mul_div_le (Zpos m) (2 ^ s) HS) as Q1.
  pose proof (Z.mul_succ_div_gt (Zpos m) (2 ^ s) HS) as Q2.
  rewrite <- M1 in Q1, Q2.
  assert (B1 : 2 ^ 52 <= m1 < 2 ^ 53) by nia.
  pose proof (round_nearest_even_bounds m1 (loc_of_shr_record mrs1)) as R.
  set (m2 := round_nearest_even m1 (loc_of_shr_record mrs1)) in *.
  destruct (shr_fexp_exact m2 (ex + s)) as (mrs2 & E2 & M2); [lia|].
  destruct (Z.eq_dec m2 (2 ^ 53)) as [Htop|Htop].
  - (* the rounded mantissa reached 2^53: one more shift *)
    assert (D2 : Zdigits2 m2 = 54) by (rewrite Htop; reflexivity).
    rewrite D2, fexp_normal in E2, M2 by lia.
    replace (Z.max 0 (54 + (ex + s) - 53 - (ex + s))) with 1 in E2, M2 by lia.
    rewrite E2, M2, Htop. change (2 ^ 53 / 2 ^ 1) with (Zpos (2 ^ 52)).
    replace (ex + s + 1 <=? 1024 - 53) with true by (symmetry; apply Z.leb_le; unfold s; lia).
    exists (2 ^ 52)%positive, (ex + s + 1).
    split; [reflexivity|]. split; [unfold s; lia|]. split; [now compute|].
    replace (ex + s + 1 - ex) with (s + 1) by lia.
    rewrite Z.pow_add_r by lia.
    change (Zpos (2 ^ 52)) with (2 ^ 52). change (2 ^ 1) with 2.
    nia.
  - destruct m2 as [|q|q] eqn:Hm2; [lia| |lia].
    assert (D2 : Zdigits2 (Zpos q) = 53).
    { cbn [Zdigits2]. apply digits2_pos_unique. change (53 - 1) with 52. lia. }
    rewrite D2, fexp_normal in E2, M2 by (unfold s; lia).
    replace (Z.max 0 (53 + (ex + s) - 53 - (ex + s))) with 0 in E2, M2 by lia.
    rewrite E2, M2. change (2 ^ 0) with 1. rewrite Z.div_1_r.
    replace (ex + s + 0 <=? 1024 - 53) with true by (symmetry; apply Z.leb_le; unfold s; lia).
    exists q, (ex + s + 0).
    split; [reflexivity|]. split; [unfold s; lia|]. split; [lia|].
    replace (ex + s + 0 - ex) with s by lia.
    nia.
Qed.


Lemma binary_round_aux_exact (m : positive) (ex : Z) :
  Zpos (digits2_pos m) = 53 -> -1074 <= ex <= 971 ->
  binary_round_aux 53 1024 false (Zpos m) ex loc_Exact = S754_finite false m ex.
Proof.
  intros Hd He. unfold binary_round_aux, shr_fexp. cbn [Zdigits2].
  rewrite Hd, fexp_normal by lia.
  replace (53 + ex - 53 - ex) with 0 by lia.
  cbn [shr_record_of_loc shr loc_of_shr_record shr_m round_nearest_even Zdigits2].
  rewrite Hd, fexp_normal by lia.
  replace (53 + ex - 53 - ex) with 0 by lia.
  cbn [shr_record_of_loc shr shr_m].
  replace (ex <=? 1024 - 53) with true by (symmetry; apply Z.leb_le; lia).
  reflexivity.
Qed.

Lemma iter_xO (p n : positive) : Zpos (Pos.iter xO p n) = Zpos p * 2 ^ Zpos n.
Proof.
  induction n as [|n IH] using Pos.peano_ind.
  - cbn. lia.
  - rewrite Pos.iter_succ, Pos2Z.inj_xO, IH, Pos2Z.inj_succ, Z.pow_succ_r by lia. ring.
Qed.

(** [random()] on a positive numerator is a normal float below one. *)
Lemma of_bits53_pos (k : Z) :
  0 < k < 2 ^ 53 ->
  exists m e,
    PyFloat.of_bits53 k = S754_finite false m e /\
    2 ^ 52 <= Zpos m < 2 ^ 53 /\ -105 <= e <= -53.
Proof.
  intros [Hk0 Hk]. destruct k as [|p|p]; try lia.
  pose proof (digits2_pos_bounds p) as [Dlo Dhi].
  assert (Hd : 1 <= Zpos (digits2_pos p) <= 53).
  { split; [lia|]. assert (Zpos (digits2_pos p) - 1 < 53); [|lia].
    apply (Z.pow_lt_mono_r_iff 2); lia. }
  unfold PyFloat.of_bits53, binary_normalize, binary_round, shl_align.
  unfold PyFloat.prec, PyFloat.emax.
  rewrite fexp_normal by lia.
  set (d := Zpos (digits2_pos p)) in *.
  destruct (d + -53 - 53 - -53) as [|n|n] eqn:Hn.
  - assert (Hd53 : d = 53) by lia.
    rewrite binary_round_aux_exact by (fold d; lia).
    exists p, (-53). split; [reflexivity|].
    rewrite Hd53 in Dlo. change (53 - 1) with 52 in Dlo. lia.
  - lia.
  - assert (Hn' : Zpos n = 53 - d) by lia.
    assert (Hm : 2 ^ 52 <= Zpos (Pos.iter xO p n) < 2 ^ 53).
    { rewrite iter_xO, Hn'.
      assert (E52 : 2 ^ 52 = 2 ^ (d - 1) * 2 ^ (53 - d)).
      { rewrite <- Z.pow_add_r by lia. f_equal. lia. }
      assert (E53 : 2 ^ 53 = 2 ^ d * 2 ^ (53 - d)).
      { rewrite <- Z.pow_add_r by lia. f_equal. lia. }
      assert (0 < 2 ^ (53 - d)) by (apply Z.pow_pos_nonneg; lia).
      rewrite E52, E53. nia. }
    rewrite binary_round_aux_exact.
    + exists (Pos.iter xO p n), (d + -53 - 53). split; [reflexivity|]. lia.
    + apply digits2_pos_unique. change (53 - 1) with 52. exact Hm.
    + lia.
Qed.


Lemma width_literal :
  PyFloat.sub (PyFloat.tenths 49) (PyFloat.tenths 35)
  = S754_finite false 6305039478318696 (-52).
Proof. vm_compute. reflexivity. Qed.

Lemma low_literal : PyFloat.tenths 35 = S754_finite false 7881299347898368 (-51).
Proof. vm_compute. reflexivity. Qed.

(** [(4.9 - 3.5) * r] for a normal [r] below one: a normal float, at most 1.41. *)
Lemma uniform_product (m : positive) (e : Z) :
  2 ^ 52 <= Zpos m < 2 ^ 53 -> -105 <= e <= -53 ->
  exists m' e',
    PyFloat.mul (PyFloat.sub (PyFloat.tenths 49) (PyFloat.tenths 35))
                (S754_finite false m e) = S754_finite false m' e' /\
    2 ^ 52 <= Zpos m' < 2 ^ 53 /\ -157 <= e' <= -52 /\
    100 * Zpos m' <= 141 * 2 ^ (- e').
Proof.
  intros Hm He. rewrite width_literal.
  unfold PyFloat.mul, SFmul. cbn [xorb].
  set (c := 6305039478318696%positive).
  pose proof (digits2_pos_bounds (c * m)) as [Dlo Dhi].
  rewrite Pos2Z.inj_mul in Dlo, Dhi.
  assert (Hc : Zpos c = 6305039478318696) by reflexivity.
  assert (Hd : 105 <= Zpos (digits2_pos (c * m)) <= 106).
  { split.
    - assert (104 < Zpos (digits2_pos (c * m))); [|lia].
      apply (Z.pow_lt_mono_r_iff 2); [lia|lia|].
      eapply Z.le_lt_trans; [|exact Dhi]. rewrite Hc. lia.
    - assert (Zpos (digits2_pos (c * m)) - 1 < 106); [|lia].
      apply (Z.pow_lt_mono_r_iff 2); [lia|lia|].
      eapply Z.le_lt_trans; [exact Dlo|]. rewrite Hc. lia. }
  destruct (binary_round_aux_bounds (c * m) (-52 + e)) as (m' & e' & E & He' & Hm' & Hlo & Hhi);
    [lia|lia|lia|].
  fold PyFloat.prec PyFloat.emax. unfold PyFloat.prec, PyFloat.emax.
  rewrite E. exists m', e'. split; [reflexivity|]. split; [exact Hm'|].
  rewrite Pos2Z.inj_mul, Hc in Hlo, Hhi.
  set (T := 2 ^ (e' - (-52 + e))) in *.
  assert (HT : 0 < T) by (apply Z.pow_pos_nonneg; lia).
  assert (HB : 1 <= 2 ^ (- e - 53)).
  { change 1 with (2 ^ 0). apply Z.pow_le_mono_r; lia. }
  assert (HDT : 2 ^ (- e') * T = 2 ^ 105 * 2 ^ (- e - 53)).
  { unfold T. rewrite <- !Z.pow_add_r by lia. f_equal. lia. }
  assert (Hle : 100 * Zpos m' <= 141 * 2 ^ (- e')).
  { apply (Z.mul_le_mono_pos_r _ _ T HT).
    replace (141 * 2 ^ (- e') * T) with (141 * (2 ^ (- e') * T)) by ring.
    rewrite HDT. nia. }
  split; [|exact Hle].
  split; [lia|].
  destruct (Z_le_gt_dec e' (-52)) as [|Hgt]; [assumption|exfalso].
  assert (2 ^ (- e') <= 2 ^ 51) by (apply Z.pow_le_mono_r; lia).
  lia.
Qed.


(** [3.5 + p] for a normal [p] of at most 1.41: a float with a negative
    exponent, strictly between 3.45 and 4.95. *)
Lemma uniform_sum (m : positive) (e : Z) :
  2 ^ 52 <= Zpos m < 2 ^ 53 -> -157 <= e <= -52 ->
  100 * Zpos m <= 141 * 2 ^ (- e) ->
  exists m' e',
    PyFloat.add (PyFloat.tenths 35) (S754_finite false m e) = S754_finite false m' e' /\
    e' < 0 /\
    345 * 2 ^ (- e') < 100 * Zpos m' < 495 * 2 ^ (- e').
Proof.
  intros Hm He Hle. rewrite low_literal.
  unfold PyFloat.add, SFadd. cbn [cond_Zopp].
  rewrite Z.min_r by lia.
  set (c := 7881299347898368%positive).
  assert (Hc : Zpos c = 7 * 2 ^ 50) by reflexivity.
  unfold shl_align at 2. rewrite Z.sub_diag. cbn [fst].
  unfold shl_align at 1.
  destruct (e - -51) as [|n|n] eqn:Hn; try lia. cbn [fst].
  assert (Hn' : Zpos n = - e - 51) by lia.
  cbn [Z.add binary_normalize]. unfold binary_round.
  set (sum := (Pos.iter xO c n + m)%positive).
  assert (Hsum : Zpos sum = 7 * 2 ^ 50 * 2 ^ (- e - 51) + Zpos m).
  { unfold sum. rewrite Pos2Z.inj_add, iter_xO, Hc, Hn'. reflexivity. }
  set (A := 2 ^ (- e - 51)) in *.
  assert (HA : 2 <= A).
  { change 2 with (2 ^ 1). apply Z.pow_le_mono_r; lia. }
  assert (HD : 2 ^ (- e) = 2 ^ 51 * A).
  { unfold A. rewrite <- Z.pow_add_r by lia. f_equal. lia. }
  pose proof (digits2_pos_bounds sum) as [Dlo Dhi].
  assert (Hd : 2 - e <= Zpos (digits2_pos sum) <= 3 - e).
  { split.
    - assert (1 - e < Zpos (digits2_pos sum)); [|lia].
      apply (Z.pow_lt_mono_r_iff 2); [lia|lia|].
      eapply Z.le_lt_trans; [|exact Dhi].
      replace (1 - e) with (52 + (- e - 51)) by lia.
      rewrite Z.pow_add_r by lia. fold A. lia.
    - assert (Zpos (digits2_pos sum) - 1 < 3 - e); [|lia].
      apply (Z.pow_lt_mono_r_iff 2); [lia|lia|].
      eapply Z.le_lt_trans; [exact Dlo|].
      replace (3 - e) with (54 + (- e - 51)) by lia.
      rewrite Z.pow_add_r by lia. fold A. lia. }
  unfold shl_align. rewrite fexp_normal by lia.
  destruct (Zpos (digits2_pos sum) + e - 53 - e) as [|k|k] eqn:Hk; try lia.
  destruct (binary_round_aux_bounds sum e) as (m' & e' & E & He' & Hm' & Hlo & Hhi);
    [lia|lia|lia|].
  unfold PyFloat.prec, PyFloat.emax.
  rewrite E. exists m', e'. split; [reflexivity|]. split; [lia|].
  set (T := 2 ^ (e' - e)) in *.
  assert (HT : 0 < T) by (apply Z.pow_pos_nonneg; lia).
  assert (HDT : 2 ^ (- e') * T = 2 ^ 51 * A).
  { rewrite <- HD. unfold T. rewrite <- Z.pow_add_r by lia. f_equal. lia. }
  rewrite Hsum in Hlo, Hhi. rewrite HD in Hle.
  split.
  - apply (Z.mul_lt_mono_pos_r T); [exact HT|].
    replace (345 * 2 ^ (- e') * T) with (345 * (2 ^ (- e') * T)) by ring.
    rewrite HDT. lia.
  - apply (Z.mul_lt_mono_pos_r T); [exact HT|].
    replace (495 * 2 ^ (- e') * T) with (495 * (2 ^ (- e') * T)) by ring.
    rewrite HDT. lia.
Qed.

Lemma round_half_even_range (n D : Z) :
  0 < D -> 345 * D < 10 * n < 495 * D ->
  35 <= PyFloat.round_half_even n D <= 49.
Proof.
  intros HD Hn. unfold PyFloat.round_half_even.
  pose proof (Z.div_mod n D ltac:(lia)) as Hdm.
  pose proof (Z.mod_pos_bound n D HD) as Hr.
  set (q := n / D) in *. set (r := n mod D) in *.
  destruct (Z.compare_spec (2 * r) D) as [Heq|Hlt|Hgt];
    [destruct (Z.even q)| |]; nia.
Qed.


Lemma round1_tenths (m : positive) (e : Z) :
  e < 0 -> 345 * 2 ^ (- e) < 100 * Zpos m < 495 * 2 ^ (- e) ->
  exists t, 35 <= t <= 49 /\
    PyFloat.round1 (S754_finite false m e) = PyFloat.tenths t.
Proof.
  intros He Hm. unfold PyFloat.round1.
  replace (0 <=? e) with false by (symmetry; apply Z.leb_gt; exact He).
  assert (HD : 0 < 2 ^ (- e)) by (apply Z.pow_pos_nonneg; lia).
  pose proof (round_half_even_range (10 * Zpos m) (2 ^ (- e)) HD ltac:(lia)) as Ht.
  destruct (PyFloat.round_half_even (10 * Zpos m) (2 ^ (- e))) as [|t|t]; try lia.
  exists (Zpos t). split; [exact Ht|].
  assert (Hcases :
    Zpos t = 35 \/ Zpos t = 36 \/ Zpos t = 37 \/ Zpos t = 38 \/ Zpos t = 39 \/
    Zpos t = 40 \/ Zpos t = 41 \/ Zpos t = 42 \/ Zpos t = 43 \/ Zpos t = 44 \/
    Zpos t = 45 \/ Zpos t = 46 \/ Zpos t = 47 \/ Zpos t = 48 \/ Zpos t = 49) by lia.
  repeat destruct Hcases as [Hcases|Hcases];
    injection Hcases as ->; vm_compute; reflexivity.
Qed.


(** [round(3.5 + (4.9 - 3.5) * (k / 2**53), 1)] is one of the fifteen floats
    [3.5], [3.6], ..., [4.9]. *)
Lemma rating_tenths (k : Z) :
  0 <= k < 2 ^ 53 ->
  exists t, 35 <= t <= 49 /\
    PyFloat.round1
      (PyFloat.add (PyFloat.tenths 35)
         (PyFloat.mul (PyFloat.sub (PyFloat.tenths 49) (PyFloat.tenths 35))
                      (PyFloat.of_bits53 k)))
    = PyFloat.tenths t.
Proof.
  intros [Hk0 Hk]. destruct (Z.eq_dec k 0) as [->|Hnz].
  - exists 35. split; [lia|]. vm_compute. reflexivity.
  - destruct (of_bits53_pos k) as (m & e & -> & Hm & He); [lia|].
    destruct (uniform_product m e Hm He) as (m1 & e1 & -> & Hm1 & He1 & Hle).
    destruct (uniform_sum m1 e1 Hm1 He1 Hle) as (m2 & e2 & -> & He2 & Hm2).
    exact (round1_tenths m2 e2 He2 Hm2).
Qed.

End Binary64.

Section Process.
Context {G : Generator} {C : ModelClient}.
Variable hash : string -> Z.
Variable json_loads : string -> string + pyobj.

#[local] Abbreviation mock_profile := (Services.mock_profile hash).
#[local] Abbreviation mock_loop := (Services.mock_loop hash).
#[local] Abbreviation turn_state := (Services.turn_state hash).
#[local] Abbreviation mock_scout_service := (Services.mock_scout_service hash).

(** ** The loop of [mock_scout_service] *)

Lemma mock_loop_unfold n industry location page results g :
  mock_loop (S n) industry location page results g =
  mock_loop n industry location page
    (results ++ [fst (mock_profile industry location page g)])
    (snd (mock_profile industry location page g)).
Proof.
  cbn [Services.mock_loop]. unfold St.bind.
  destruct (mock_profile industry location page g); reflexivity.
Qed.

Lemma mock_loop_profiles n industry location page :
  forall results g,
    fst (mock_loop n industry location page results g) =
    (results ++
     map (fun k => fst (mock_profile industry location page
                          (turn_state k industry location page g)))
         (seq 0 n))%list.
Proof.
  induction n as [|n IH]; intros results g.
  - cbn. now rewrite app_nil_r.
  - rewrite mock_loop_unfold, IH, <- app_assoc. cbn [seq map app].
    rewrite <- seq_shift, map_map. reflexivity.
Qed.

(** A call of [mock_scout_service] is the loop run from the seeded state; it
    leaves one sleep of a second in the trace and the model as it was. *)
Lemma mock_scout_service_run industry location page w :
  mock_scout_service industry location page w =
  let r := mock_loop 10 industry location page []
             (seed (industry ++ location ++ str_of_int page)) in
  (fst r, mkWorld (snd r) (model w) (trace w ++ [Sleep (PFloat (PyFloat.of_Z 1))])).
Proof.
  unfold Services.mock_scout_service, St.bind, sleep, emit, random_seed, draw.
  cbn [w_random model trace].
  destruct (Services.mock_loop _ _ _ _ _ _); reflexivity.
Qed.

Lemma mock_scout_service_profiles industry location page w :
  fst (mock_scout_service industry location page w) =
  map (fun k => fst (mock_profile industry location page
                       (turn_state k industry location page
                          (seed (industry ++ location ++ str_of_int page)))))
      (seq 0 10).
Proof.
  rewrite mock_scout_service_run. cbv zeta. cbn [fst].
  now rewrite mock_loop_profiles.
Qed.

(** What one turn of the loop puts in the dictionary. *)
Lemma mock_profile_fields industry location page g :
  let p := fst (mock_profile industry location page g) in
  BusinessProfile.id p = "biz_" ++ str_of_int (hash (BusinessProfile.name p)) /\
  (exists s, BusinessProfile.email p = PStr s) /\
  (exists s, BusinessProfile.phone p = PStr s) /\
  (exists t, 35 <= t <= 49 /\ BusinessProfile.rating p = PFloat (PyFloat.tenths t)) /\
  (exists n, 10 <= n <= 500 /\ BusinessProfile.review_count p = PInt n) /\
  (exists s, BusinessProfile.website p
             = if fst (has_site_draw g) then PStr s else PNone).
Proof.
  unfold Services.mock_profile, uniform, random, randint, St.bind, St.ret.
  destruct (has_site_draw g) as [has_site g1].
  destruct (choice "Apex" (tl base_names) g1) as [base g2].
  destruct (choice "Solutions" (tl suffixes) g2) as [suffix g3].
  destruct (bits53 g3) as [k1 g4].
  destruct (bits53 g4) as [k2 g5].
  destruct (bits53 g5) as [k3 g6].
  pose proof (bits53_range g6) as Hk.
  destruct (bits53 g6) as [k g7].
  pose proof (randbelow_range (500 + 1 - 10) g7 eq_refl) as Hn.
  destruct (randbelow (500 + 1 - 10) g7) as [n g8].
  destruct (randbelow (999 + 1 - 100) g8) as [n1 g9].
  destruct (randbelow (9999 + 1 - 1000) g9) as [n2 g10].
  cbn [fst snd] in *. cbv zeta.
  cbn [BusinessProfile.id BusinessProfile.name BusinessProfile.email
       BusinessProfile.phone BusinessProfile.rating BusinessProfile.review_count
       BusinessProfile.website].
  split; [reflexivity|]. split; [eexists; reflexivity|].
  split; [eexists; reflexivity|].
  split.
  { destruct (rating_tenths k Hk) as (t & Ht & Hr). exists t.
    split; [exact Ht|f_equal; exact Hr]. }
  split.
  { exists (10 + n). split; [lia|reflexivity]. }
  exists ("www." ++ lower base ++ lower industry ++ ".com"). reflexivity.
Qed.

(** The [industry] and the [location] of the dictionary are the arguments of
    the call. *)
Lemma mock_profile_request industry location page g :
  let p := fst (mock_profile industry location page g) in
  BusinessProfile.industry p = PStr industry /\
  BusinessProfile.location p = PStr location.
Proof.
  unfold Services.mock_profile, uniform, random, randint, St.bind, St.ret.
  destruct (has_site_draw g) as [has_site g1].
  destruct (choice "Apex" (tl base_names) g1) as [base g2].
  destruct (choice "Solutions" (tl suffixes) g2) as [suffix g3].
  destruct (bits53 g3) as [k1 g4].
  destruct (bits53 g4) as [k2 g5].
  destruct (bits53 g5) as [k3 g6].
  destruct (bits53 g6) as [k g7].
  destruct (randbelow (500 + 1 - 10) g7) as [n g8].
  destruct (randbelow (999 + 1 - 100) g8) as [n1 g9].
  destruct (randbelow (9999 + 1 - 1000) g9) as [n2 g10].
  split; reflexivity.
Qed.



Lemma Forall2_map_self {A B} (P : A -> B -> Prop) (f : A -> B) (l : list A) :
  (forall a, P a (f a)) -> Forall2 P l (map f l).
Proof. intros H. induction l; cbn; constructor; auto. Qed.

(** C2. Two calls of [mock_scout_service] with the same arguments return the
    same list of profiles, whatever the state of the process at each call (the
    state of the generator, the model, the trace): the call seeds the generator
    from its arguments before it draws. *)
Theorem mock_scout_service_deterministic industry location page w1 w2 :
  fst (mock_scout_service industry location page w1)
  = fst (mock_scout_service industry location page w2).
Proof. now rewrite !mock_scout_service_profiles. Qed.


(** C10. In every profile [mock_scout_service] returns, [industry] and
    [location] are the strings of the call, [email] and [phone] are strings,
    [rating] is a float and [review_count] an integer ([id], [name] and
    [source_url] are strings and [social_media] a dictionary by the type of
    the record): none of them is [None].  [website] is [None] exactly when the
    website draw of the profile's turn is [False], and a string otherwise. *)
Theorem mock_scout_service_nullable industry location page w :
  Forall2
    (fun k p =>
       BusinessProfile.industry p = PStr industry /\
       BusinessProfile.location p = PStr location /\
       (exists s, BusinessProfile.email p = PStr s) /\
       (exists s, BusinessProfile.phone p = PStr s) /\
       (exists r, BusinessProfile.rating p = PFloat r) /\
       (exists n, BusinessProfile.review_count p = PInt n) /\
       (BusinessProfile.website p = PNone <->
        fst (has_site_draw
               (turn_state k industry location page
                  (seed (industry ++ location ++ str_of_int page)))) = false) /\
       (BusinessProfile.website p = PNone \/
        exists s, BusinessProfile.website p = PStr s))
    (seq 0 10)
    (fst (mock_scout_service industry location page w)).
Proof.
  rewrite mock_scout_service_profiles. apply Forall2_map_self. intros k.
  destruct (mock_profile_fields industry location page
              (turn_state k industry location page
                 (seed (industry ++ location ++ str_of_int page))))
    as (_ & He & Hp & (t & _ & Hr) & (n & _ & Hc) & (s & Hw)).
  destruct (mock_profile_request industry location page
              (turn_state k industry location page
                 (seed (industry ++ location ++ str_of_int page))))
    as (Hi & Hl).
  repeat split; try assumption.
  - exists (PyFloat.tenths t). exact Hr.
  - exists n. exact Hc.
  - rewrite Hw. destruct (fst (has_site_draw _)); [discriminate|reflexivity].
  - rewrite Hw. intros ->. reflexivity.
  - rewrite Hw. destruct (fst (has_site_draw _)); [right; exists s|left]; reflexivity.
Qed.

(** ** [ai_scout_service] *)

#[local] Abbreviation ai_results := (Services.ai_results json_loads).
#[local] Abbreviation ai_scout_service := (Services.ai_scout_service hash json_loads).
#[local] Abbreviation scout := (Services.scout hash json_loads).

Lemma ai_scout_service_run industry location page w c :
  model w = Some c ->
  ai_scout_service industry location page w =
  let prompt := scout_prompt industry location page in
  let w1 := mkWorld (w_random w) (Some (snd (generate_content prompt c)))
              (trace w ++ [Generate prompt]) in
  match ai_results industry location (fst (generate_content prompt c)) with
  | Some results => (results, w1)
  | None => mock_scout_service industry location page w1
  end.
Proof.
  intros Hm. unfold Services.ai_scout_service, St.bind, call_model. rewrite Hm.
  destruct (generate_content _ c) as [reply c']. cbn [fst snd]. cbv zeta.
  destruct (Services.ai_results _ _ _ _); reflexivity.
Qed.




(** ** [generate_audit_and_message] *)

#[local] Abbreviation parse_reply := (Services.parse_reply json_loads).
#[local] Abbreviation audit_loop := (Services.audit_loop json_loads).
#[local] Abbreviation rate_limited := (Services.rate_limited json_loads).
#[local] Abbreviation generate_audit_and_message :=
  (Services.generate_audit_and_message json_loads).

(** One turn of the retry loop on a configured model. *)
Lemma audit_loop_attempt attempt rest prompt rnd c tr :
  audit_loop (attempt :: rest) prompt (mkWorld rnd (Some c) tr) =
  let c' := snd (generate_content prompt c) in
  match parse_reply (fst (generate_content prompt c)) with
  | inr result => (result, mkWorld rnd (Some c') (tr ++ [Generate prompt]))
  | inl msg =>
      if is_rate_limit msg then
        if attempt <? max_retries - 1 then
          audit_loop rest prompt
            (mkWorld rnd (Some c')
               (tr ++ [Generate prompt; Sleep (PInt retry_delay)]))
        else (rate_limit_result, mkWorld rnd (Some c') (tr ++ [Generate prompt]))
      else (error_result, mkWorld rnd (Some c') (tr ++ [Generate prompt]))
  end.
Proof.
  cbn [Services.audit_loop]. unfold St.bind, call_model. cbn [model w_random trace].
  destruct (generate_content prompt c) as [reply c']. cbn [fst snd]. cbv zeta.
  destruct (parse_reply reply) as [msg|result]; [|reflexivity].
  destruct (is_rate_limit msg); [|reflexivity].
  destruct (attempt <? max_retries - 1); [|reflexivity].
  unfold sleep, emit, St.bind. cbn [model w_random trace].
  rewrite <- app_assoc. reflexivity.
Qed.

(** After [n <= 2] rate-limited attempts the loop is at its attempt number
    [n], with [n] sleeps of [retry_delay] behind it. *)
Lemma audit_loop_retries prompt rnd :
  forall n c c' tr,
    (n <= 2)%nat -> rate_limited n prompt c = Some c' ->
    audit_loop (range max_retries) prompt (mkWorld rnd (Some c) tr) =
    audit_loop (skipn n (range max_retries)) prompt
      (mkWorld rnd (Some c') (tr ++ retries n prompt)).
Proof.
  assert (Hstep : forall attempt rest c c1 tr,
            (attempt <? max_retries - 1) = true ->
            rate_limited 1 prompt c = Some c1 ->
            audit_loop (attempt :: rest) prompt (mkWorld rnd (Some c) tr) =
            audit_loop rest prompt
              (mkWorld rnd (Some c1) (tr ++ [Generate prompt; Sleep (PInt retry_delay)]))).
  { intros attempt rest c c1 tr Ha H1. rewrite audit_loop_attempt. cbv zeta.
    cbn [Services.rate_limited] in H1.
    destruct (generate_content prompt c) as [reply c0]. cbn [fst snd].
    destruct (parse_reply reply) as [msg|]; [|discriminate].
    destruct (is_rate_limit msg); [|discriminate].
    injection H1 as <-. rewrite Ha. reflexivity. }
  intros n c c' tr Hn H.
  destruct n as [|[|[|n]]]; [| | |lia].
  - injection H as <-. unfold retries. cbn. now rewrite app_nil_r.
  - change (range max_retries) with [0; 1; 2].
    rewrite (Hstep 0 _ c c' tr eq_refl H). reflexivity.
  - change (range max_retries) with [0; 1; 2].
    cbn [Services.rate_limited] in H.
    destruct (generate_content prompt c) as [reply c1] eqn:Hg.
    destruct (parse_reply reply) as [msg|] eqn:Hp; [|discriminate].
    destruct (is_rate_limit msg) eqn:Hr; [|discriminate].
    assert (H1 : rate_limited 1 prompt c = Some c1).
    { cbn [Services.rate_limited]. now rewrite Hg, Hp, Hr. }
    rewrite (Hstep 0 _ c c1 tr eq_refl H1).
    rewrite (Hstep 1 _ c1 c' _ eq_refl H).
    unfold retries. cbn. now rewrite <- app_assoc.
Qed.

Lemma parse_reply_inr reply result :
  parse_reply reply = inr result ->
  exists text, reply = inr text /\ json_loads text = inr result.
Proof.
  destruct reply as [msg|text]; cbn; [discriminate|]. intros H. now exists text.
Qed.

(** C5. On a configured model, with [prompt] the audit prompt:
    - three attempts in a row that fail with a rate-limit error (a message
      containing ["429"] or ["Quota exceeded"]) end in the rate-limit result,
      after three model calls and two sleeps of 60;
    - after [n <= 2] such attempts, each followed by a sleep of 60 and a new
      attempt, an attempt that fails with any other error ends at once in the
      generic error result, and an attempt that succeeds returns the parsed
      reply: [n] sleeps, [n + 1] calls;
    - both terminal results carry [audit_score] 0. *)
Theorem audit_retry_policy data rnd c tr :
  let prompt := audit_prompt data in
  let w := mkWorld rnd (Some c) tr in
  (forall c3,
      rate_limited 3 prompt c = Some c3 ->
      generate_audit_and_message data w =
      (rate_limit_result,
       mkWorld rnd (Some c3)
         (tr ++ [Generate prompt; Sleep (PInt 60);
                 Generate prompt; Sleep (PInt 60);
                 Generate prompt]))) /\
  (forall n c' msg,
      (n <= 2)%nat -> rate_limited n prompt c = Some c' ->
      parse_reply (fst (generate_content prompt c')) = inl msg ->
      is_rate_limit msg = false ->
      generate_audit_and_message data w =
      (error_result,
       mkWorld rnd (Some (snd (generate_content prompt c')))
         (tr ++ retries n prompt ++ [Generate prompt]))) /\
  (forall n c' result,
      (n <= 2)%nat -> rate_limited n prompt c = Some c' ->
      parse_reply (fst (generate_content prompt c')) = inr result ->
      generate_audit_and_message data w =
      (result,
       mkWorld rnd (Some (snd (generate_content prompt c')))
         (tr ++ retries n prompt ++ [Generate prompt]))) /\
  field "audit_score" rate_limit_result = Some (PInt 0) /\
  field "audit_score" error_result = Some (PInt 0).
Proof.
  cbv zeta. unfold Services.generate_audit_and_message. cbn [model].
  set (prompt := audit_prompt data).
  assert (Hskip : forall n, (n <= 2)%nat ->
            exists attempt rest, skipn n (range max_retries) = attempt :: rest).
  { intros n Hn. destruct n as [|[|[|n]]]; [| | |lia];
      do 2 eexists; reflexivity. }
  split; [|split; [|split; [|split; reflexivity]]].
  - intros c3 H3.
    assert (H2 : exists c2, rate_limited 2 prompt c = Some c2 /\
                            rate_limited 1 prompt c2 = Some c3).
    { cbn [Services.rate_limited] in H3 |- *.
      destruct (generate_content prompt c) as [r1 c1].
      destruct (parse_reply r1) as [m1|]; [|discriminate].
      destruct (is_rate_limit m1); [|discriminate].
      destruct (generate_content prompt c1) as [r2 c2].
      destruct (parse_reply r2) as [m2|]; [|discriminate].
      destruct (is_rate_limit m2); [|discriminate].
      exists c2. split; [reflexivity|exact H3]. }
    destruct H2 as (c2 & H2 & H1).
    rewrite (audit_loop_retries prompt rnd 2 c c2 tr (le_n 2) H2).
    change (skipn 2 (range max_retries)) with [2].
    rewrite audit_loop_attempt. cbv zeta.
    cbn [Services.rate_limited] in H1.
    destruct (generate_content prompt c2) as [r3 c3']. cbn [fst snd].
    destruct (parse_reply r3) as [m3|]; [|discriminate].
    destruct (is_rate_limit m3); [|discriminate].
    injection H1 as <-. change (2 <? max_retries - 1) with false. cbv iota.
    unfold retries. cbn [repeat List.concat app]. rewrite <- app_assoc. reflexivity.
  - intros n c' msg Hn Hrl Hp Hmsg.
    rewrite (audit_loop_retries prompt rnd n c c' tr Hn Hrl).
    destruct (Hskip n Hn) as (attempt & rest & ->).
    rewrite audit_loop_attempt. cbv zeta. rewrite Hp, Hmsg.
    now rewrite <- app_assoc.
  - intros n c' result Hn Hrl Hp.
    rewrite (audit_loop_retries prompt rnd n c c' tr Hn Hrl).
    destruct (Hskip n Hn) as (attempt & rest & ->).
    rewrite audit_loop_attempt. cbv zeta. rewrite Hp.
    now rewrite <- app_assoc.
Qed.

(** C7, as the code has it.  The result of the audit service is the fixed
    dictionary with [audit_score] 45 when no model is configured; with a model
    it is the rate-limit result or the generic error result, both with
    [audit_score] 0, or the value [json.loads] made of a reply of the model,
    returned as it is. *)
Theorem audit_result_cases data w :
  let result := fst (generate_audit_and_message data w) in
  ((model w = None /\ result = no_key_result) \/
   (model w <> None /\
    (result = rate_limit_result \/ result = error_result \/
     exists text, json_loads text = inr result))) /\
  field "audit_score" no_key_result = Some (PInt 45) /\
  field "audit_score" rate_limit_result = Some (PInt 0) /\
  field "audit_score" error_result = Some (PInt 0).
Proof.
  cbv zeta. split; [|repeat split].
  destruct w as [rnd [c|] tr]; [right|left; split; reflexivity].
  split; [discriminate|].
  unfold Services.generate_audit_and_message. cbn [model].
  change (range max_retries) with [0; 1; 2].
  set (prompt := audit_prompt data).
  rewrite audit_loop_attempt. cbv zeta.
  destruct (parse_reply (fst (generate_content prompt c))) as [m1|r1] eqn:H1;
    [|right; right; cbn [fst]; destruct (parse_reply_inr _ _ H1) as (t & _ & Ht); now exists t].
  destruct (is_rate_limit m1); [|right; left; reflexivity].
  change (0 <? max_retries - 1) with true. cbv iota.
  set (c1 := snd (generate_content prompt c)).
  rewrite audit_loop_attempt. cbv zeta.
  destruct (parse_reply (fst (generate_content prompt c1))) as [m2|r2] eqn:H2;
    [|right; right; cbn [fst]; destruct (parse_reply_inr _ _ H2) as (t & _ & Ht); now exists t].
  destruct (is_rate_limit m2); [|right; left; reflexivity].
  change (1 <? max_retries - 1) with true. cbv iota.
  set (c2 := snd (generate_content prompt c1)).
  rewrite audit_loop_attempt. cbv zeta.
  destruct (parse_reply (fst (generate_content prompt c2))) as [m3|r3] eqn:H3;
    [|right; right; cbn [fst]; destruct (parse_reply_inr _ _ H3) as (t & _ & Ht); now exists t].
  destruct (is_rate_limit m3); [|right; left; reflexivity].
  change (2 <? max_retries - 1) with false. cbv iota.
  left. reflexivity.
Qed.

(** C8. With no model configured, the audit service returns, for every
    request, the fixed dictionary with [audit_score] 45 whose pain points name
    the missing API key and whose message asks to configure the AI backend; the
    world is left as it was: no model call, no sleep. *)
Theorem audit_without_model data rnd tr :
  generate_audit_and_message data (mkWorld rnd None tr)
  = (no_key_result, mkWorld rnd None tr) /\
  field "audit_score" no_key_result = Some (PInt 45) /\
  field "pain_points" no_key_result
  = Some (PList [PStr "No API Key Detected"; PStr "Cannot analyze real data";
                 PStr "Please set GEMINI_API_KEY"]) /\
  field "outreach_message" no_key_result
  = Some (PStr "System Error: Please configure the AI backend.").
Proof. repeat split. Qed.

End Process.

(** ** [verify_email] *)

Section Normalize.
Local Open Scope string_scope.





Lemma lower_space_char c : is_space c = true -> lower_char c = c.
Proof. destruct c as [[] [] [] [] [] [] [] []]; cbn; intros H; (reflexivity || discriminate). Qed.

Lemma lower_all_space s : all_space s = true -> lower s = s.
Proof.
  induction s as [|c s IH]; cbn; [reflexivity|].
  intros H. apply andb_prop in H as [Hc Hs].
  now rewrite lower_space_char, IH.
Qed.

Lemma lstrip_all_space s : all_space s = true -> lstrip s = "".
Proof.
  induction s as [|c s IH]; cbn; [reflexivity|].
  intros H. apply andb_prop in H as [-> Hs]. auto.
Qed.


















End Normalize.

(** ** Runs on the test doubles *)

Section Runs.
Local Open Scope string_scope.

(** An item with a ["name"] of type [str] gets the MD5 prefix of that name as
    its id and carries that name. *)
Lemma ai_profile_named industry location d name p :
  lookup "name" d = Some (PStr name) ->
  ai_profile industry location (PDict d) = Some p ->
  BusinessProfile.name p = name /\
  BusinessProfile.id p = "biz_" ++ substring 0 10 (MD5.hexdigest (encode name)).
Proof.
  intros Hn. unfold ai_profile, Py.get, obind. rewrite Hn. cbn [as_str].
  intros H. injection H as <-. split; reflexivity.
Qed.

(** C6, at the input where the code departs from it.  For a reply whose item
    has no ["name"] and a reply whose item is named ["Unknown"], [scout]
    returns two profiles that carry the same name, ["Unknown"], with two
    different ids: the id of the first is the MD5 prefix of the empty string,
    not of the name the profile carries. *)
Theorem scout_id_of_nameless_item :
  let nameless := fst (Fake.scout Fake.plumbing_request
                         (Fake.world0 (Some [inr Fake.text_nameless_item]))) in
  let unknown := fst (Fake.scout Fake.plumbing_request
                        (Fake.world0 (Some [inr Fake.text_unknown_item]))) in
  map BusinessProfile.name nameless = ["Unknown"] /\
  map BusinessProfile.name unknown = ["Unknown"] /\
  map BusinessProfile.id nameless = ["biz_d41d8cd98f"] /\
  map BusinessProfile.id unknown = ["biz_88183b946c"].
Proof. vm_compute. repeat split. Qed.


(** C7 fails on the success path: a reply with ["audit_score": 150] is
    returned as it is. *)
Lemma analyze_score_out_of_range :
  field "audit_score"
    (fst (Fake.analyze Fake.bakery_request (Fake.world0 (Some [inr Fake.text_score_150]))))
  = Some (PInt 150) /\
  ~ (0 <= 150 <= 100).
Proof. split; [vm_compute; reflexivity|lia]. Qed.



(** Three rate-limit errors in a row: the rate-limit result, three calls and
    two sleeps. *)
Lemma audit_retry_policy_witness :
  let script := [inl "429 Too Many Requests"; inl "Quota exceeded for metric";
                 inl "HTTP 429"] in
  let prompt := audit_prompt Fake.bakery_request in
  Fake.analyze Fake.bakery_request (Fake.world0 (Some script))
  = (rate_limit_result,
     @mkWorld Fake.lcg Fake.scripted 0 (Some [])
       [Generate prompt; Sleep (PInt 60);
        Generate prompt; Sleep (PInt 60);
        Generate prompt]).
Proof.
  cbv zeta.
  apply (proj1 (@audit_retry_policy Fake.lcg Fake.scripted Fake.json_loads
                  Fake.bakery_request 0
                  [inl "429 Too Many Requests"; inl "Quota exceeded for metric";
                   inl "HTTP 429"] [])).
  reflexivity.
Defined.

(** [scout("plumbing", "Austin, TX", 1)] called twice without a model, the
    second call in the world the first one left: the same ten profiles. *)
Example scout_plumbing_twice :
  let first := Fake.scout Fake.plumbing_request (Fake.world0 None) in
  let second := Fake.scout Fake.plumbing_request (snd first) in
  fst first = fst second /\ List.length (fst first) = 10%nat.
Proof. vm_compute. split; reflexivity. Qed.

End Runs.

(** * Further properties of the services *)

Import PyText Shapes.

(** ** Text *)

Section Text.

Lemma append_assoc a b c : (a ++ b) ++ c = a ++ b ++ c.
Proof. induction a as [|x a IH]; cbn; [reflexivity|now rewrite IH]. Qed.

Lemma length_append a b : String.length (a ++ b) = (String.length a + String.length b)%nat.
Proof. induction a as [|x a IH]; cbn; [reflexivity|now rewrite IH]. Qed.

Lemma startswith_app p s : startswith p (p ++ s) = true.
Proof. induction p as [|c p IH]; cbn; [reflexivity|]. now rewrite Ascii.eqb_refl. Qed.

Lemma startswith_inv p s : startswith p s = true -> exists r, s = p ++ r.
Proof.
  revert s. induction p as [|c p IH]; intros s H.
  - now exists s.
  - destruct s as [|a s]; [discriminate|]. cbn in H.
    apply andb_prop in H as [Hc Hs]. apply Ascii.eqb_eq in Hc as ->.
    destruct (IH s Hs) as (r & ->). now exists r.
Qed.

(** [p in s] holds exactly when [s] is [a + p + b] for some [a] and [b]. *)
Lemma contains_iff p s : contains p s = true <-> exists a b, s = a ++ p ++ b.
Proof.
  split.
  - induction s as [|c s IH].
    + cbn. rewrite orb_false_r. intros H. apply startswith_inv in H as (r & Hr).
      now exists "", r.
    + cbn [contains]. intros H. apply orb_prop in H as [H|H].
      * apply startswith_inv in H as (r & Hr). now exists "", r.
      * destruct (IH H) as (a & b & ->). now exists (String c a), b.
  - intros (a & b & ->). induction a as [|c a IH].
    + cbn [append]. destruct (p ++ b) eqn:E; cbn [contains]; rewrite <- ?E;
        now rewrite startswith_app.
    + cbn [append contains]. now rewrite IH, orb_true_r.
Qed.

Lemma contains_char c s : contains (String c "") s = mem c s.
Proof.
  induction s as [|a s IH]; [reflexivity|].
  cbn [contains mem startswith]. now rewrite IH, andb_true_r.
Qed.

Lemma mem_app c a b : mem c (a ++ b) = mem c a || mem c b.
Proof. induction a as [|x a IH]; cbn; [reflexivity|]. now rewrite IH, orb_assoc. Qed.

Lemma mem_replace_space t s :
  mem " " t = false -> mem " " (replace_space t s) = false.
Proof.
  intros Ht. induction s as [|c s IH]; cbn [replace_space]; [reflexivity|].
  destruct (Ascii.eqb c " ") eqn:E.
  - now rewrite mem_app, Ht, IH.
  - cbn [mem]. rewrite Ascii.eqb_sym, E. exact IH.
Qed.

Lemma lower_char_space c : Ascii.eqb " " (lower_char c) = Ascii.eqb " " c.
Proof. destruct c as [[] [] [] [] [] [] [] []]; reflexivity. Qed.

Lemma mem_space_lower s : mem " " (lower s) = mem " " s.
Proof.
  induction s as [|c s IH]; cbn [lower mem]; [reflexivity|].
  now rewrite lower_char_space, IH.
Qed.

Lemma str_of_int_inj a b : str_of_int a = str_of_int b -> a = b.
Proof.
  unfold str_of_int. intros H.
  assert (Hi : forall z, NilZero.int_of_string (NilZero.string_of_int (Z.to_int z))
                         = Some (Z.to_int z)).
  { intros z. apply NilZero.isi; destruct z; cbn; try discriminate;
      intros [= E]; now apply Unsigned.to_uint_nonnil in E. }
  apply (f_equal NilZero.int_of_string) in H. rewrite !Hi in H.
  injection H as H. now apply DecimalZ.to_int_inj.
Qed.

Lemma mem_space_uint u : mem " " (NilEmpty.string_of_uint u) = false.
Proof. induction u; cbn; auto. Qed.

Lemma mem_space_str_of_int z : mem " " (str_of_int z) = false.
Proof.
  unfold str_of_int.
  destruct (Z.to_int z) as [u|u]; cbn; destruct u; cbn; auto using mem_space_uint.
Qed.

End Text.

(** ** The dictionary of a synthetic profile *)

Section Shape.
Context {G : Generator} {C : ModelClient}.
Variable hash : string -> Z.

Lemma choice_In {A} (x : A) (xs : list A) (g : rng) :
  In (fst (choice x xs g)) (x :: xs).
Proof.
  unfold choice, St.bind, St.ret.
  destruct (randbelow _ g) as [i g']. cbn [fst].
  destruct (nth_in_or_default (Z.to_nat i) (x :: xs) x) as [H| ->]; [exact H|now left].
Qed.

(** One turn of the loop, field by field, in terms of what was drawn. *)
Lemma mock_profile_shape industry location page g :
  exists base suffix (l1 l2 l3 : bool) t n a b,
    In base base_names /\ In suffix suffixes /\
    35 <= t <= 49 /\ 10 <= n <= 500 /\ 100 <= a <= 999 /\ 1000 <= b <= 9999 /\
    fst (mock_profile hash industry location page g) =
    let has_site := fst (has_site_draw g) in
    let name := mock_name industry page base suffix in
    BusinessProfile.mk
      ("biz_" ++ str_of_int (hash name))
      name
      (PStr industry)
      (PStr location)
      (if has_site then PStr ("www." ++ lower base ++ lower industry ++ ".com") else PNone)
      (PStr ("(555) " ++ str_of_int a ++ "-" ++ str_of_int b))
      (PStr (if has_site then "contact@" ++ lower base ++ lower industry ++ ".com"
             else sanitize name ++ "@gmail.com"))
      (mock_socials (sanitize name) l1 l2 l3)
      (search_url name location)
      (PFloat (PyFloat.tenths t))
      (PInt n).
Proof.
  unfold mock_profile, uniform, random, randint, St.bind, St.ret.
  destruct (has_site_draw g) as [has_site g1].
  pose proof (choice_In "Apex" (tl base_names) g1) as Hb.
  destruct (choice "Apex" (tl base_names) g1) as [base g2].
  pose proof (choice_In "Solutions" (tl suffixes) g2) as Hs.
  destruct (choice "Solutions" (tl suffixes) g2) as [suffix g3].
  destruct (bits53 g3) as [k1 g4].
  destruct (bits53 g4) as [k2 g5].
  destruct (bits53 g5) as [k3 g6].
  pose proof (bits53_range g6) as Hk.
  destruct (bits53 g6) as [k g7].
  pose proof (randbelow_range (500 + 1 - 10) g7 eq_refl) as Hn.
  destruct (randbelow (500 + 1 - 10) g7) as [n g8].
  pose proof (randbelow_range (999 + 1 - 100) g8 eq_refl) as Ha.
  destruct (randbelow (999 + 1 - 100) g8) as [a g9].
  pose proof (randbelow_range (9999 + 1 - 1000) g9 eq_refl) as Hb'.
  destruct (randbelow (9999 + 1 - 1000) g9) as [b g10].
  cbn [fst snd] in *.
  destruct (rating_tenths k Hk) as (t & Ht & Hr).
  exists base, suffix,
    (PyFloat.ltb (PyFloat.tenths 3) (PyFloat.of_bits53 k1)),
    (PyFloat.ltb (PyFloat.tenths 6) (PyFloat.of_bits53 k2)),
    (PyFloat.ltb (PyFloat.tenths 6) (PyFloat.of_bits53 k3)),
    t, (10 + n), (100 + a), (1000 + b).
  split; [exact Hb|]. split; [exact Hs|]. split; [exact Ht|].
  split; [lia|]. split; [lia|]. split; [lia|].
  cbv zeta. rewrite Hr. unfold mock_name, sanitize, mock_socials. cbv zeta.
  f_equal.
  destruct (PyFloat.ltb (PyFloat.tenths 3) (PyFloat.of_bits53 k1)),
             (PyFloat.ltb (PyFloat.tenths 6) (PyFloat.of_bits53 k2)),
             (PyFloat.ltb (PyFloat.tenths 6) (PyFloat.of_bits53 k3)); reflexivity.
Qed.

End Shape.

(** ** The last word of a name *)

Section Words.

Lemma last_word_plain d : mem " " d = false -> last_word d = d.
Proof. destruct d as [|c d]; [reflexivity|]. intros H. cbn [last_word]. now rewrite H. Qed.

Lemma last_word_app a d : mem " " d = false -> last_word (a ++ " " ++ d) = d.
Proof.
  intros Hd. induction a as [|c a IH].
  - cbn [append last_word mem]. rewrite Ascii.eqb_refl. cbn [orb].
    now apply last_word_plain.
  - assert (Hmem : mem " " (String c (a ++ " " ++ d)) = true).
    { cbn [mem]. rewrite mem_app. cbn [append mem]. rewrite Ascii.eqb_refl.
      cbn [orb]. now rewrite !orb_true_r. }
    change (last_word (String c a ++ " " ++ d))
      with (if mem " " (String c (a ++ " " ++ d))
            then last_word (a ++ " " ++ d) else String c (a ++ " " ++ d)).
    rewrite Hmem. exact IH.
Qed.

Lemma suffix_no_space s : In s suffixes -> mem " " s = false.
Proof. intros H. repeat (destruct H as [<-|H]; [reflexivity|]). destruct H. Qed.

Lemma str_of_int_not_suffix z : ~ In (str_of_int z) suffixes.
Proof.
  intros H.
  assert (Hi : NilZero.int_of_string (str_of_int z) = Some (Z.to_int z)).
  { unfold str_of_int. apply NilZero.isi; destruct z; cbn; try discriminate;
      intros [= E]; now apply Unsigned.to_uint_nonnil in E. }
  repeat (destruct H as [H|H]; [rewrite <- H in Hi; discriminate|]). destruct H.
Qed.

Lemma mock_name_last_word industry page base suffix :
  In suffix suffixes ->
  last_word (mock_name industry page base suffix)
  = if page >? 1 then str_of_int page else suffix.
Proof.
  intros Hs. unfold mock_name. cbv zeta. destruct (page >? 1).
  - apply last_word_app, mem_space_str_of_int.
  - replace (base ++ " " ++ capitalize industry ++ " " ++ suffix)
      with ((base ++ " " ++ capitalize industry) ++ " " ++ suffix).
    + apply last_word_app, suffix_no_space, Hs.
    + now rewrite !append_assoc.
Qed.

End Words.

(** ** [mock_scout_service], field by field *)

Section MockExtras.
Context {G : Generator} {C : ModelClient}.
Variable hash : string -> Z.

#[local] Abbreviation mock_profile := (Services.mock_profile hash).
#[local] Abbreviation mock_scout_service := (Services.mock_scout_service hash).

Lemma mock_scout_service_Forall (P : BusinessProfile.t -> Prop) industry location page w :
  (forall g, P (fst (mock_profile industry location page g))) ->
  Forall P (fst (mock_scout_service industry location page w)).
Proof.
  intros H. rewrite mock_scout_service_profiles. apply Forall_map, Forall_forall.
  intros k _. apply H.
Qed.

Lemma str_of_int_length3 a : 100 <= a <= 999 -> String.length (str_of_int a) = 3%nat.
Proof.
  intros Ha.
  assert (Hall : forallb (fun k => Nat.eqb (String.length (str_of_int (100 + Z.of_nat k))) 3)
                   (seq 0 900) = true) by (vm_compute; reflexivity).
  rewrite forallb_forall in Hall.
  specialize (Hall (Z.to_nat (a - 100))). rewrite in_seq in Hall.
  replace (100 + Z.of_nat (Z.to_nat (a - 100))) with a in Hall by lia.
  apply Nat.eqb_eq, Hall. lia.
Qed.

Lemma str_of_int_length4 a : 1000 <= a <= 9999 -> String.length (str_of_int a) = 4%nat.
Proof.
  intros Ha.
  assert (Hall : forallb (fun k => Nat.eqb (String.length (str_of_int (1000 + Z.of_nat k))) 4)
                   (seq 0 (Z.to_nat 9000)) = true) by (vm_compute; reflexivity).
  rewrite forallb_forall in Hall.
  specialize (Hall (Z.to_nat (a - 1000))). rewrite in_seq in Hall.
  replace (1000 + Z.of_nat (Z.to_nat (a - 1000))) with a in Hall by lia.
  apply Nat.eqb_eq, Hall. lia.
Qed.


(** X2. For one industry, the names of a page [page1 > 1] and the names of any
    other page are disjoint, whatever the locations and the states of the
    process. *)
Theorem mock_scout_service_pages_differ industry location1 location2 page1 page2 w1 w2 :
  page1 > 1 -> page1 <> page2 ->
  Forall
    (fun p1 =>
       Forall (fun p2 => BusinessProfile.name p1 <> BusinessProfile.name p2)
         (fst (mock_scout_service industry location2 page2 w2)))
    (fst (mock_scout_service industry location1 page1 w1)).
Proof.
  intros Hp Hne.
  apply mock_scout_service_Forall. intros g1.
  apply mock_scout_service_Forall. intros g2.
  destruct (mock_profile_shape hash industry location1 page1 g1)
    as (b1 & s1 & ? & ? & ? & ? & ? & ? & ? & _ & Hs1 & _ & _ & _ & _ & ->).
  destruct (mock_profile_shape hash industry location2 page2 g2)
    as (b2 & s2 & ? & ? & ? & ? & ? & ? & ? & _ & Hs2 & _ & _ & _ & _ & ->).
  cbv zeta. cbn [BusinessProfile.name]. intros E.
  apply (f_equal last_word) in E.
  rewrite !mock_name_last_word in E by assumption.
  replace (page1 >? 1) with true in E by (symmetry; apply Z.gtb_lt; lia).
  destruct (page2 >? 1).
  - apply str_of_int_inj in E. contradiction.
  - apply (str_of_int_not_suffix page1). rewrite E. exact Hs2.
Qed.


Lemma sanitize_no_space s : contains " " (lower (replace_space "" s)) = false.
Proof. rewrite contains_char, mem_space_lower. now apply mem_replace_space. Qed.

Lemma search_url_no_space name location :
  contains " " (search_url name location) = false.
Proof.
  unfold search_url. rewrite contains_char, !mem_app.
  rewrite !mem_replace_space by reflexivity. reflexivity.
Qed.

(** X3. Every synthetic profile echoes the industry and the location of the
    request.  Either it has a website ["www.<d>.com"] and the email
    ["contact@<d>.com"] on the same [<d>], the lower-cased base name followed
    by the lower-cased industry, or it has no website and its email is the
    name without spaces, lower-cased, at ["gmail.com"]. *)
Theorem mock_scout_service_contact industry location page w :
  Forall
    (fun p =>
       BusinessProfile.industry p = PStr industry /\
       BusinessProfile.location p = PStr location /\
       ((exists base,
           In base base_names /\
           BusinessProfile.website p
           = PStr ("www." ++ lower base ++ lower industry ++ ".com") /\
           BusinessProfile.email p
           = PStr ("contact@" ++ lower base ++ lower industry ++ ".com")) \/
        (BusinessProfile.website p = PNone /\
         BusinessProfile.email p
         = PStr (lower (replace_space "" (BusinessProfile.name p)) ++ "@gmail.com"))))
    (fst (mock_scout_service industry location page w)).
Proof.
  apply mock_scout_service_Forall. intros g.
  destruct (mock_profile_shape hash industry location page g)
    as (base & suffix & l1 & l2 & l3 & t & n & a & b & Hb & _ & _ & _ & _ & _ & ->).
  cbv zeta. cbn [BusinessProfile.industry BusinessProfile.location BusinessProfile.website
                 BusinessProfile.email BusinessProfile.name].
  split; [reflexivity|]. split; [reflexivity|].
  destruct (fst (has_site_draw g)).
  - left. exists base. repeat split. exact Hb.
  - right. split; reflexivity.
Qed.

(** X4. The phone of every synthetic profile is ["(555) "], a number between
    100 and 999, a dash and a number between 1000 and 9999: 14 characters. *)
Theorem mock_scout_service_phone industry location page w :
  Forall
    (fun p =>
       exists a b,
         100 <= a <= 999 /\ 1000 <= b <= 9999 /\
         BusinessProfile.phone p
         = PStr ("(555) " ++ str_of_int a ++ "-" ++ str_of_int b) /\
         String.length ("(555) " ++ str_of_int a ++ "-" ++ str_of_int b) = 14%nat)
    (fst (mock_scout_service industry location page w)).
Proof.
  apply mock_scout_service_Forall. intros g.
  destruct (mock_profile_shape hash industry location page g)
    as (base & suffix & l1 & l2 & l3 & t & n & a & b & _ & _ & _ & _ & Ha & Hb & ->).
  exists a, b. split; [exact Ha|]. split; [exact Hb|]. split; [reflexivity|].
  rewrite !length_append, (str_of_int_length3 a Ha), (str_of_int_length4 b Hb).
  reflexivity.
Qed.

(** X5. The social links of a synthetic profile are a sub-list of the links
    ["linkedin"], ["twitter"], ["facebook"], in that order, each a fixed prefix
    followed by the sanitized name, which holds no space. *)
Theorem mock_scout_service_socials industry location page w :
  Forall
    (fun p =>
       let sanitized := lower (replace_space "" (BusinessProfile.name p)) in
       contains " " sanitized = false /\
       exists linkedin twitter facebook : bool,
         BusinessProfile.social_media p =
         app (if linkedin
              then [("linkedin", "https://linkedin.com/company/" ++ sanitized)] else [])
          (app (if twitter
                then [("twitter", "https://twitter.com/" ++ sanitized)] else [])
               (if facebook
                then [("facebook", "https://facebook.com/" ++ sanitized)] else [])))
    (fst (mock_scout_service industry location page w)).
Proof.
  apply mock_scout_service_Forall. intros g.
  destruct (mock_profile_shape hash industry location page g)
    as (base & suffix & l1 & l2 & l3 & t & n & a & b & _ & _ & _ & _ & _ & _ & ->).
  cbv zeta. cbn [BusinessProfile.social_media BusinessProfile.name].
  split; [apply sanitize_no_space|]. exists l1, l2, l3. reflexivity.
Qed.

(** X6. The rating of every synthetic profile is one of the fifteen floats
    [3.5], [3.6], ..., [4.9]: the double nearest to [t/10] for an integer
    [35 <= t <= 49]. *)
Theorem mock_scout_service_rating_tenths industry location page w :
  Forall
    (fun p => exists t, 35 <= t <= 49 /\
                        BusinessProfile.rating p = PFloat (PyFloat.tenths t))
    (fst (mock_scout_service industry location page w)).
Proof.
  apply mock_scout_service_Forall. intros g.
  destruct (mock_profile_shape hash industry location page g)
    as (base & suffix & l1 & l2 & l3 & t & n & a & b & _ & _ & Ht & _ & _ & _ & ->).
  exists t. split; [exact Ht|reflexivity].
Qed.

(** X7. The id of a synthetic profile is ["biz_"] followed by the decimal
    [hash] of its name; two synthetic profiles of one process, of the same call
    or not, have the same id exactly when their names have the same [hash]. *)
Theorem mock_scout_service_ids industry1 location1 page1 w1 industry2 location2 page2 w2 :
  Forall
    (fun p =>
       BusinessProfile.id p = "biz_" ++ str_of_int (hash (BusinessProfile.name p)) /\
       Forall
         (fun q =>
            BusinessProfile.id p = BusinessProfile.id q <->
            hash (BusinessProfile.name p) = hash (BusinessProfile.name q))
         (fst (mock_scout_service industry2 location2 page2 w2)))
    (fst (mock_scout_service industry1 location1 page1 w1)).
Proof.
  apply mock_scout_service_Forall. intros g1.
  destruct (mock_profile_shape hash industry1 location1 page1 g1)
    as (b1 & s1 & ? & ? & ? & ? & ? & ? & ? & _ & _ & _ & _ & _ & _ & ->).
  cbv zeta. cbn [BusinessProfile.id BusinessProfile.name].
  split; [reflexivity|].
  apply mock_scout_service_Forall. intros g2.
  destruct (mock_profile_shape hash industry2 location2 page2 g2)
    as (b2 & s2 & ? & ? & ? & ? & ? & ? & ? & _ & _ & _ & _ & _ & _ & ->).
  cbv zeta. cbn [BusinessProfile.id BusinessProfile.name].
  split.
  - intros E. injection E as E. now apply str_of_int_inj.
  - intros ->. reflexivity.
Qed.

(** X8. [mock_scout_service] leaves the model as it was, adds one sleep of a
    second to the trace, and leaves the process generator in a state that
    depends on the arguments alone, not on its state before the call. *)
Theorem mock_scout_service_effects industry location page w1 w2 :
  let after1 := snd (mock_scout_service industry location page w1) in
  let after2 := snd (mock_scout_service industry location page w2) in
  model after1 = model w1 /\
  trace after1 = (trace w1 ++ [Sleep (PFloat (PyFloat.of_Z 1))])%list /\
  w_random after1 = w_random after2.
Proof.
  cbv zeta. rewrite !mock_scout_service_run. cbv zeta. cbn [snd model trace w_random].
  repeat split.
Qed.

End MockExtras.

(** ** Digests *)

Section Digest.

Lemma le_split_bytes n x : byte_list (MD5.le_split n x).
Proof.
  revert x. induction n as [|n IH]; intros x; cbn; constructor.
  - apply Z.mod_pos_bound. lia.
  - apply IH.
Qed.

Lemma le_split_length n x : List.length (MD5.le_split n x) = n.
Proof. revert x. induction n as [|n IH]; intros x; cbn; [reflexivity|now rewrite IH]. Qed.

Lemma digest_bytes msg : byte_list (MD5.digest msg) /\ List.length (MD5.digest msg) = 16%nat.
Proof.
  unfold MD5.digest. cbv zeta. split.
  - unfold byte_list. rewrite !Forall_app. repeat split; apply le_split_bytes.
  - rewrite !length_app, !le_split_length. reflexivity.
Qed.

Lemma hex_digit_spec n :
  0 <= n < 16 ->
  is_hex_digit (MD5.hex_digit n) = true /\ hex_value (MD5.hex_digit n) = Some n.
Proof.
  intros Hn.
  assert (Hall : forallb
            (fun k => is_hex_digit (MD5.hex_digit (Z.of_nat k)) &&
                      match hex_value (MD5.hex_digit (Z.of_nat k)) with
                      | Some v => v =? Z.of_nat k
                      | None => false
                      end)
            (seq 0 16) = true) by reflexivity.
  rewrite forallb_forall in Hall.
  specialize (Hall (Z.to_nat n)). rewrite in_seq, Z2Nat.id in Hall by lia.
  apply andb_prop in Hall as [Hd Hv]; [|lia]. split; [exact Hd|].
  destruct (hex_value (MD5.hex_digit n)) as [v|]; [|discriminate].
  apply Z.eqb_eq in Hv. now subst v.
Qed.

Lemma hex_of_bytes_length l : String.length (MD5.hex_of_bytes l) = (2 * List.length l)%nat.
Proof. induction l as [|b l IH]; cbn [MD5.hex_of_bytes String.length List.length]; lia. Qed.

Lemma hex_of_bytes_digits l : byte_list l -> all_chars is_hex_digit (MD5.hex_of_bytes l) = true.
Proof.
  induction 1 as [|b l Hb Hl IH]; [reflexivity|].
  cbn [MD5.hex_of_bytes all_chars].
  destruct (hex_digit_spec (b / 16)) as [-> _].
  { split; [apply Z.div_pos; lia|apply Z.div_lt_upper_bound; lia]. }
  destruct (hex_digit_spec (b mod 16)) as [-> _]; [apply Z.mod_pos_bound; lia|].
  exact IH.
Qed.

Lemma int16_from_hex l : byte_list l ->
  forall acc, int16_from acc (MD5.hex_of_bytes l)
              = Some (fold_left (fun a b => 256 * a + b) l acc).
Proof.
  induction 1 as [|b l Hb Hl IH]; intros acc; [reflexivity|].
  cbn [MD5.hex_of_bytes int16_from fold_left].
  destruct (hex_digit_spec (b / 16)) as [_ ->].
  { split; [apply Z.div_pos; lia|apply Z.div_lt_upper_bound; lia]. }
  destruct (hex_digit_spec (b mod 16)) as [_ ->]; [apply Z.mod_pos_bound; lia|].
  rewrite IH. do 2 f_equal.
  pose proof (Z.div_mod b 16 ltac:(lia)). lia.
Qed.

Lemma be_combine_range l : byte_list l ->
  forall acc, 0 <= acc ->
    acc * 256 ^ Z.of_nat (List.length l)
    <= fold_left (fun a b => 256 * a + b) l acc
    < (acc + 1) * 256 ^ Z.of_nat (List.length l).
Proof.
  induction 1 as [|b l Hb Hl IH]; intros acc Hacc.
  - cbn. lia.
  - cbn [fold_left List.length]. rewrite Nat2Z.inj_succ, Z.pow_succ_r by lia.
    specialize (IH (256 * acc + b) ltac:(lia)).
    assert (0 < 256 ^ Z.of_nat (List.length l)) by (apply Z.pow_pos_nonneg; lia).
    nia.
Qed.

Lemma hexdigest_shape msg :
  String.length (MD5.hexdigest msg) = 32%nat /\
  all_chars is_hex_digit (MD5.hexdigest msg) = true.
Proof.
  destruct (digest_bytes msg) as [Hb Hl]. unfold MD5.hexdigest. split.
  - now rewrite hex_of_bytes_length, Hl.
  - now apply hex_of_bytes_digits.
Qed.

(** X20. [int(hashlib.md5(m).hexdigest(), 16)], as [verify_email] computes it,
    is the big-endian value of the 16 digest bytes, a number below [2**128];
    the hexdigest is 32 lower-case hexadecimal digits. *)
Theorem md5_int_of_hexdigest msg :
  int16 (MD5.hexdigest msg) = Some (MD5.digest_int msg) /\
  String.length (MD5.hexdigest msg) = 32%nat /\
  all_chars is_hex_digit (MD5.hexdigest msg) = true /\
  0 <= MD5.digest_int msg < 2 ^ 128.
Proof.
  destruct (digest_bytes msg) as [Hb Hl].
  unfold MD5.hexdigest, MD5.digest_int, MD5.be_combine.
  split; [|split; [|split]].
  - unfold int16. rewrite <- (int16_from_hex _ Hb 0).
    destruct (MD5.hex_of_bytes (MD5.digest msg)) eqn:E; [|reflexivity].
    apply (f_equal String.length) in E. rewrite hex_of_bytes_length, Hl in E. discriminate.
  - now rewrite hex_of_bytes_length, Hl.
  - now apply hex_of_bytes_digits.
  - pose proof (be_combine_range _ Hb 0 ltac:(lia)) as H. rewrite Hl in H.
    change (256 ^ Z.of_nat 16) with (2 ^ 128) in H. lia.
Qed.

End Digest.

(** ** [ai_scout_service], item by item *)

Section AiItems.

Lemma substring0_length s : forall n, (n <= String.length s)%nat ->
  String.length (substring 0 n s) = n.
Proof.
  induction s as [|c s IH]; intros [|n] H; cbn in *; try lia.
  rewrite IH; lia.
Qed.

Lemma substring0_all f s : all_chars f s = true ->
  forall n, all_chars f (substring 0 n s) = true.
Proof.
  induction s as [|c s IH]; intros H [|n]; cbn in *; try reflexivity.
  apply andb_prop in H as [-> H]. now apply IH.
Qed.

Lemma ai_profile_dict industry location d :
  ai_profile industry location (PDict d) =
  match lookup "name" d with
  | None | Some (PStr _) =>
      let hashed := match lookup "name" d with Some (PStr s) => s | _ => "" end in
      let name := match lookup "name" d with Some (PStr s) => s | _ => "Unknown" end in
      let value := dict_value d in
      Some (BusinessProfile.mk
              ("biz_" ++ substring 0 10 (MD5.hexdigest (encode hashed)))
              name
              (value "industry" (PStr industry))
              (value "location" (PStr location))
              (value "website" PNone)
              (value "phone" (PStr "N/A"))
              (value "email" PNone)
              [("linkedin", "https://linkedin.com/company/" ++ lower (replace_space "" name));
               ("twitter", "https://twitter.com/" ++ lower (replace_space "" name))]
              (search_url name location)
              (value "rating" PNone)
              (value "review_count" PNone))
  | Some _ => None
  end.
Proof.
  unfold ai_profile, Py.get, obind, dict_value.
  destruct (lookup "name" d) as [[| | | |s| |]|]; reflexivity.
Qed.

(** X9. The body of the loop on one item.  When it goes through, the item
    is a dictionary whose ["name"] is absent or a string: an item that is not
    a dictionary, and a ["name"] that is null, a number, a list or a
    dictionary, raise.  It goes through on every dictionary without a
    ["name"], and on every dictionary whose ["name"] is a string of ASCII
    characters. *)
Theorem ai_profile_succeeds industry location item :
  ((exists p, ai_profile industry location item = Some p) ->
   exists d, item = PDict d /\
             (lookup "name" d = None \/ exists s, lookup "name" d = Some (PStr s))) /\
  (forall d v, item = PDict d -> lookup "name" d = Some v ->
               (forall s, v <> PStr s) -> ai_profile industry location item = None) /\
  ((forall d, item <> PDict d) -> ai_profile industry location item = None) /\
  (forall d, item = PDict d -> lookup "name" d = None ->
             exists p, ai_profile industry location item = Some p) /\
  (forall d s, item = PDict d -> lookup "name" d = Some (PStr s) ->
               is_ascii s = true ->
               exists p, ai_profile industry location item = Some p).
Proof.
  split; [|split; [|split; [|split]]].
  - intros (p & Hp). destruct item as [| | | | | |d]; try discriminate.
    exists d. split; [reflexivity|]. rewrite ai_profile_dict in Hp.
    destruct (lookup "name" d) as [[| | | |s| |]|]; try discriminate;
      [right; now exists s|now left].
  - intros d v -> Hv Hs. rewrite ai_profile_dict, Hv.
    destruct v as [| | | |s| |]; try reflexivity. now destruct (Hs s).
  - intros H. destruct item as [| | | | | |d]; try reflexivity. now destruct (H d).
  - intros d -> H. rewrite ai_profile_dict, H. eexists; reflexivity.
  - intros d s -> H _. rewrite ai_profile_dict, H. eexists; reflexivity.
Qed.

Lemma ai_loop_acc industry location items :
  forall results out,
    ai_loop industry location items results = Some out <->
    exists ps, out = (results ++ ps)%list /\
               Forall2 (fun item p => ai_profile industry location item = Some p) items ps.
Proof.
  induction items as [|item rest IH]; intros results out; cbn [ai_loop].
  - split.
    + intros [= <-]. exists []. split; [now rewrite app_nil_r|constructor].
    + intros (ps & -> & H). inversion H. now rewrite app_nil_r.
  - unfold obind at 1. destruct (ai_profile industry location item) as [p|] eqn:Hp.
    + rewrite IH. split.
      * intros (ps & -> & H). exists (p :: ps). split; [now rewrite <- app_assoc|].
        now constructor.
      * intros (ps & -> & H). inversion H as [|? q ? qs Hq Hrest]; subst.
        rewrite Hp in Hq. injection Hq as <-. exists qs.
        split; [now rewrite <- app_assoc|assumption].
    + split; [discriminate|]. intros (ps & _ & H).
      inversion H as [|? q ? qs Hq Hrest]; subst. rewrite Hp in Hq. discriminate.
Qed.

Lemma ai_loop_none industry location items :
  forall results,
    ai_loop industry location items results = None <->
    exists item, In item items /\ ai_profile industry location item = None.
Proof.
  induction items as [|item rest IH]; intros results; cbn [ai_loop].
  - split; [discriminate|]. intros (item & [] & _).
  - unfold obind at 1. destruct (ai_profile industry location item) as [p|] eqn:Hp.
    + rewrite IH. split.
      * intros (x & Hx & Hn). exists x. split; [now right|exact Hn].
      * intros (x & [<-|Hx] & Hn); [rewrite Hp in Hn; discriminate|].
        exists x. split; assumption.
    + split; [|reflexivity]. intros _. exists item. split; [now left|exact Hp].
Qed.

(** X10. The loop of [ai_scout_service] is all or nothing: it returns a list
    exactly when every item goes through, and the list is then the profiles of
    the items in order; it raises exactly when some item raises. *)
Theorem ai_loop_all_or_nothing industry location items :
  (forall out,
      ai_loop industry location items [] = Some out <->
      Forall2 (fun item p => ai_profile industry location item = Some p) items out) /\
  (ai_loop industry location items [] = None <->
   exists item, In item items /\ ai_profile industry location item = None).
Proof.
  split; [|apply ai_loop_none].
  intros out. rewrite ai_loop_acc. cbn [app]. split.
  - intros (ps & -> & H). exact H.
  - intros H. now exists out.
Qed.

Lemma lookup_other {A} k k' (v : A) d :
  k' <> k -> lookup k' ((k, v) :: d) = lookup k' d.
Proof.
  intros H. cbn [lookup]. destruct (String.eqb_spec k' k); [contradiction|reflexivity].
Qed.

(** X11. A key of an item other than the eight the loop reads (["id"],
    ["social_media"], ...) has no effect on the profile. *)
Theorem ai_profile_ignores_other_keys industry location k v d :
  ~ In k item_keys ->
  ai_profile industry location (PDict ((k, v) :: d))
  = ai_profile industry location (PDict d).
Proof.
  intros Hk. rewrite !ai_profile_dict. unfold dict_value.
  rewrite !(lookup_other k) by (intros <-; apply Hk; cbn; tauto).
  reflexivity.
Qed.

(** X12. An item with none of the eight keys gives the profile named
    ["Unknown"], with the industry and location of the request, the phone
    ["N/A"], no website, email, rating or review count, and the id made of the
    MD5 digest of the empty string. *)
Theorem ai_profile_defaults industry location d :
  (forall k, In k item_keys -> lookup k d = None) ->
  ai_profile industry location (PDict d) =
  Some (BusinessProfile.mk
          "biz_d41d8cd98f" "Unknown" (PStr industry) (PStr location) PNone
          (PStr "N/A") PNone
          [("linkedin", "https://linkedin.com/company/unknown");
           ("twitter", "https://twitter.com/unknown")]
          (search_url "Unknown" location) PNone PNone).
Proof.
  intros H. rewrite ai_profile_dict. unfold dict_value.
  rewrite !H by (cbn; tauto). reflexivity.
Qed.

(** X13. The id of a profile built from an item is ["biz_"] followed by ten
    lower-case hexadecimal digits: 14 characters. *)
Theorem ai_profile_id_format industry location item :
  match ai_profile industry location item with
  | Some p =>
      exists h, BusinessProfile.id p = "biz_" ++ h /\
                String.length h = 10%nat /\ all_chars is_hex_digit h = true /\
                String.length (BusinessProfile.id p) = 14%nat
  | None => True
  end.
Proof.
  destruct item as [| | | | | |d]; try exact I.
  rewrite ai_profile_dict.
  destruct (lookup "name" d) as [[| | | |s| |]|]; try exact I; cbv zeta;
    cbn [BusinessProfile.id];
    match goal with |- context [MD5.hexdigest ?m] =>
      destruct (hexdigest_shape m) as (Hl & Hd);
      exists (substring 0 10 (MD5.hexdigest m))
    end;
    (split; [reflexivity|]);
    (split; [apply substring0_length; rewrite Hl; lia|]);
    (split; [now apply substring0_all|]);
    rewrite length_append, substring0_length by (rewrite Hl; lia); reflexivity.
Qed.

(** X14. When two items whose ["name"] is the same string both go through,
    their profiles carry that name and share one id, ["biz_"] and the first
    ten digits of the MD5 hexdigest of the name, whatever their other keys and
    whatever the request. *)
Theorem ai_profile_id_of_name industry1 location1 industry2 location2 d1 d2 name p1 p2 :
  lookup "name" d1 = Some (PStr name) ->
  lookup "name" d2 = Some (PStr name) ->
  ai_profile industry1 location1 (PDict d1) = Some p1 ->
  ai_profile industry2 location2 (PDict d2) = Some p2 ->
  BusinessProfile.name p1 = name /\ BusinessProfile.name p2 = name /\
  BusinessProfile.id p1 = BusinessProfile.id p2 /\
  BusinessProfile.id p1 = "biz_" ++ substring 0 10 (MD5.hexdigest (encode name)).
Proof.
  intros H1 H2. rewrite !ai_profile_dict, H1, H2. cbv zeta.
  set (h := MD5.hexdigest _). clearbody h.
  intros [= <-] [= <-]. repeat split.
Qed.

(** X15. The loop over a parsed reply that is not a list: an empty dictionary
    and an empty string are iterated to no item, and give an empty list of
    profiles; any other value (a dictionary with a key, a string with a
    character, a number, a boolean, null) raises.  A list is looped over. *)
Theorem ai_results_not_a_list industry location data :
  obind (iterate data) (fun items => ai_loop industry location items []) =
  match data with
  | PList items => ai_loop industry location items []
  | PDict [] | PStr EmptyString => Some []
  | _ => None
  end.
Proof.
  destruct data as [| | | |s|l|d]; try reflexivity.
  - destruct s as [|c s]; reflexivity.
  - destruct d as [|[k v] d]; [reflexivity|].
    cbn [iterate map fst nodup obind].
    destruct (in_dec string_dec k (map fst d)) as [Hin|Hin].
    + destruct (nodup string_dec (map fst d)) as [|k' ks] eqn:E.
      * apply (nodup_In string_dec) in Hin. rewrite E in Hin. destruct Hin.
      * reflexivity.
    + reflexivity.
Qed.


(** The profile built from an item, with the MD5 prefix kept abstract. *)
Lemma ai_profile_some industry location item p :
  ai_profile industry location item = Some p ->
  exists d name h,
    item = PDict d /\
    p = BusinessProfile.mk
          ("biz_" ++ h) name
          (dict_value d "industry" (PStr industry))
          (dict_value d "location" (PStr location))
          (dict_value d "website" PNone)
          (dict_value d "phone" (PStr "N/A"))
          (dict_value d "email" PNone)
          [("linkedin", "https://linkedin.com/company/" ++ lower (replace_space "" name));
           ("twitter", "https://twitter.com/" ++ lower (replace_space "" name))]
          (search_url name location)
          (dict_value d "rating" PNone)
          (dict_value d "review_count" PNone).
Proof.
  destruct item as [| | | | | |d]; try (intros H; discriminate H).
  rewrite ai_profile_dict. intros H. exists d.
  destruct (lookup "name" d) as [[| | | |s| |]|];
    try (discriminate H); cbv zeta in H.
  - set (h := MD5.hexdigest _) in H. clearbody h.
    exists s, (substring 0 10 h). split; [reflexivity|]. now injection H as <-.
  - set (h := MD5.hexdigest _) in H. clearbody h.
    exists "Unknown", (substring 0 10 h). split; [reflexivity|]. now injection H as <-.
Qed.

Lemma ai_loop_Forall (P : BusinessProfile.t -> Prop) industry location items :
  (forall item p, ai_profile industry location item = Some p -> P p) ->
  forall results out,
    Forall P results ->
    ai_loop industry location items results = Some out -> Forall P out.
Proof.
  intros HP results out Hres H. apply ai_loop_acc in H as (ps & -> & H2).
  apply Forall_app. split; [exact Hres|].
  induction H2 as [|item p items ps Hp _ IH]; constructor; eauto.
Qed.

End AiItems.

(** ** [scout], on every path *)

Section AiExtras.
Context {G : Generator} {C : ModelClient}.
Variable hash : string -> Z.
Variable json_loads : string -> string + pyobj.

#[local] Abbreviation mock_scout_service := (Services.mock_scout_service hash).
#[local] Abbreviation ai_scout_service := (Services.ai_scout_service hash json_loads).
#[local] Abbreviation scout := (Services.scout hash json_loads).
#[local] Abbreviation ai_results := (Services.ai_results json_loads).

Lemma ai_results_Forall (P : BusinessProfile.t -> Prop) industry location reply out :
  (forall item p, ai_profile industry location item = Some p -> P p) ->
  ai_results industry location reply = Some out -> Forall P out.
Proof.
  intros HP. unfold Services.ai_results.
  destruct reply as [msg|text]; [discriminate|].
  destruct (json_loads text) as [msg|data]; [discriminate|].
  unfold obind at 1. destruct (iterate data) as [items|]; [|discriminate].
  apply (ai_loop_Forall P); [exact HP|constructor].
Qed.

(** Whatever path produced them, the profiles of [scout] satisfy a property
    that holds of every synthetic profile and of every profile built from an
    item. *)
Lemma scout_Forall (P : BusinessProfile.t -> Prop) request w :
  (forall g, P (fst (Services.mock_profile hash (ScoutRequest.industry request)
                       (ScoutRequest.location request) (ScoutRequest.page request) g))) ->
  (forall item p,
      ai_profile (ScoutRequest.industry request) (ScoutRequest.location request) item
      = Some p -> P p) ->
  Forall P (fst (scout request w)).
Proof.
  intros Hmock Hai. unfold Services.scout.
  destruct (model w) as [c|] eqn:Hm.
  - rewrite (ai_scout_service_run hash json_loads _ _ _ _ _ Hm). cbv zeta.
    destruct (ai_results _ _ _) as [results|] eqn:Hr.
    + cbn [fst]. eapply ai_results_Forall; eassumption.
    + now apply mock_scout_service_Forall.
  - unfold Services.ai_scout_service. rewrite Hm. now apply mock_scout_service_Forall.
Qed.

(** X16. On every path of [scout], the source url of a profile is the search
    url of the name the profile carries and the location of the request, and
    holds no space. *)
Theorem scout_source_url request w :
  Forall
    (fun p =>
       BusinessProfile.source_url p
       = search_url (BusinessProfile.name p) (ScoutRequest.location request) /\
       contains " " (BusinessProfile.source_url p) = false)
    (fst (scout request w)).
Proof.
  apply scout_Forall.
  - intros g.
    destruct (mock_profile_shape hash (ScoutRequest.industry request)
                (ScoutRequest.location request) (ScoutRequest.page request) g)
      as (base & suffix & l1 & l2 & l3 & t & n & a & b & _ & _ & _ & _ & _ & _ & ->).
    cbv zeta. cbn [BusinessProfile.source_url BusinessProfile.name].
    split; [reflexivity|apply search_url_no_space].
  - intros item p Hp. apply ai_profile_some in Hp as (d & name & h & _ & ->).
    cbn [BusinessProfile.source_url BusinessProfile.name].
    split; [reflexivity|apply search_url_no_space].
Qed.

(** X17. [scout] calls the model at most once, and sleeps (one second) exactly
    when it returns synthetic profiles; when the model's reply goes through,
    the process generator is left untouched. *)
Theorem scout_effects request w :
  let prompt := scout_prompt (ScoutRequest.industry request)
                  (ScoutRequest.location request) (ScoutRequest.page request) in
  let nap := Sleep (PFloat (PyFloat.of_Z 1)) in
  let after := snd (scout request w) in
  match model w with
  | None => after = mkWorld (w_random after) None (trace w ++ [nap])
  | Some c =>
      match ai_results (ScoutRequest.industry request) (ScoutRequest.location request)
              (fst (generate_content prompt c)) with
      | Some _ =>
          after = mkWorld (w_random w) (Some (snd (generate_content prompt c)))
                    (trace w ++ [Generate prompt])
      | None =>
          after = mkWorld (w_random after) (Some (snd (generate_content prompt c)))
                    (trace w ++ [Generate prompt; nap])
      end
  end.
Proof.
  cbv zeta. unfold Services.scout.
  destruct (model w) as [c|] eqn:Hm.
  - rewrite (ai_scout_service_run hash json_loads _ _ _ _ _ Hm). cbv zeta.
    destruct (ai_results _ _ _) as [results|]; [reflexivity|].
    rewrite mock_scout_service_run. cbv zeta. cbn [snd w_random model trace].
    now rewrite <- app_assoc.
  - unfold Services.ai_scout_service. rewrite Hm.
    rewrite mock_scout_service_run. cbv zeta. cbn [snd w_random]. now rewrite Hm.
Qed.

End AiExtras.

(** ** The retry loop, whatever the client does *)

Section AuditExtras.
Context {G : Generator} {C : ModelClient}.
Variable json_loads : string -> string + pyobj.

#[local] Abbreviation parse_reply := (Services.parse_reply json_loads).
#[local] Abbreviation audit_loop := (Services.audit_loop json_loads).
#[local] Abbreviation generate_audit_and_message :=
  (Services.generate_audit_and_message json_loads).

(** X18. Whatever the client answers, [generate_audit_and_message] leaves the
    process generator untouched and, on a configured model, makes [n + 1]
    model calls separated by [n] sleeps of 60, for some [n <= 2]: at most three
    calls and two sleeps, no sleep after the last call.  Without a model it
    leaves the world as it is. *)
Theorem audit_bounded_effects data w :
  let prompt := audit_prompt data in
  let after := snd (generate_audit_and_message data w) in
  w_random after = w_random w /\
  match model w with
  | None => after = w
  | Some _ =>
      exists n, (n <= 2)%nat /\
                trace after = (trace w ++ retries n prompt ++ [Generate prompt])%list
  end.
Proof.
  cbv zeta. destruct w as [rnd [c|] tr]; [|split; reflexivity].
  unfold Services.generate_audit_and_message. cbn [model w_random trace].
  change (range max_retries) with [0; 1; 2].
  set (prompt := audit_prompt data).
  rewrite audit_loop_attempt. cbv zeta.
  destruct (parse_reply (fst (generate_content prompt c))) as [m1|r1];
    [|split; [reflexivity|exists 0%nat; split; [lia|reflexivity]]].
  destruct (is_rate_limit m1);
    [|split; [reflexivity|exists 0%nat; split; [lia|reflexivity]]].
  change (0 <? max_retries - 1) with true. cbv iota.
  set (c1 := snd (generate_content prompt c)).
  rewrite audit_loop_attempt. cbv zeta.
  assert (E1 : forall l, ((tr ++ [Generate prompt; Sleep (PInt retry_delay)]) ++ l
                          = tr ++ retries 1 prompt ++ l)%list).
  { intros l. unfold retries. cbn. now rewrite <- app_assoc. }
  destruct (parse_reply (fst (generate_content prompt c1))) as [m2|r2];
    [|split; [reflexivity|exists 1%nat; split; [lia|apply E1]]].
  destruct (is_rate_limit m2);
    [|split; [reflexivity|exists 1%nat; split; [lia|apply E1]]].
  change (1 <? max_retries - 1) with true. cbv iota.
  set (c2 := snd (generate_content prompt c1)).
  rewrite audit_loop_attempt. cbv zeta.
  assert (E2 : forall l,
             (((tr ++ [Generate prompt; Sleep (PInt retry_delay)])
               ++ [Generate prompt; Sleep (PInt retry_delay)]) ++ l
              = tr ++ retries 2 prompt ++ l)%list).
  { intros l. unfold retries. cbn. now rewrite <- !app_assoc. }
  destruct (parse_reply (fst (generate_content prompt c2))) as [m3|r3];
    [|split; [reflexivity|exists 2%nat; split; [lia|apply E2]]].
  destruct (is_rate_limit m3);
    [|split; [reflexivity|exists 2%nat; split; [lia|apply E2]]].
  change (2 <? max_retries - 1) with false. cbv iota.
  split; [reflexivity|exists 2%nat; split; [lia|apply E2]].
Qed.

End AuditExtras.

(** ** Messages and addresses *)

Section MoreText.

(** X19. An error counts as a rate limit exactly when its message holds
    ["429"] or ["Quota exceeded"] (in this case) as a substring, anywhere in
    the message. *)
Theorem is_rate_limit_iff msg :
  is_rate_limit msg = true <->
  exists a b, msg = a ++ "429" ++ b \/ msg = a ++ "Quota exceeded" ++ b.
Proof.
  unfold is_rate_limit. rewrite orb_true_iff, !contains_iff. split.
  - intros [(a & b & H)|(a & b & H)]; exists a, b; [now left|now right].
  - intros (a & b & [H|H]); [left|right]; now exists a, b.
Qed.

Lemma is_space_lower_char c : is_space (lower_char c) = is_space c.
Proof. destruct c as [[] [] [] [] [] [] [] []]; reflexivity. Qed.

Lemma lower_char_idem c : lower_char (lower_char c) = lower_char c.
Proof. destruct c as [[] [] [] [] [] [] [] []]; reflexivity. Qed.

Lemma lower_idem s : lower (lower s) = lower s.
Proof. induction s as [|c s IH]; cbn; [reflexivity|]. now rewrite lower_char_idem, IH. Qed.

Lemma lower_lstrip s : lower (lstrip s) = lstrip (lower s).
Proof.
  induction s as [|c s IH]; [reflexivity|].
  cbn [lstrip lower]. rewrite is_space_lower_char.
  destruct (is_space c); [exact IH|reflexivity].
Qed.

Lemma lower_rstrip s : lower (rstrip s) = rstrip (lower s).
Proof.
  induction s as [|c s IH]; [reflexivity|].
  cbn [rstrip lower]. rewrite <- IH, is_space_lower_char.
  destruct (rstrip s) as [|x y]; cbn [lower]; [|reflexivity].
  destruct (is_space c); reflexivity.
Qed.

Lemma lower_strip s : lower (strip s) = strip (lower s).
Proof. unfold strip. now rewrite lower_rstrip, lower_lstrip. Qed.

Lemma lstrip_length s : (String.length (lstrip s) <= String.length s)%nat.
Proof.
  induction s as [|c s IH]; cbn [lstrip String.length]; [lia|].
  destruct (is_space c); cbn [String.length]; lia.
Qed.

Lemma rstrip_cons c r :
  rstrip (String c r) =
  match rstrip r with
  | EmptyString => if is_space c then EmptyString else String c EmptyString
  | String x y => String c (String x y)
  end.
Proof. reflexivity. Qed.

Lemma rstrip_idem s : rstrip (rstrip s) = rstrip s.
Proof.
  induction s as [|c s IH]; [reflexivity|].
  rewrite rstrip_cons. destruct (rstrip s) as [|x y].
  - destruct (is_space c) eqn:Hc; [reflexivity|]. rewrite rstrip_cons. cbn [rstrip].
    now rewrite Hc.
  - rewrite rstrip_cons, IH. reflexivity.
Qed.

Lemma lstrip_rstrip s : lstrip s = s -> lstrip (rstrip s) = rstrip s.
Proof.
  destruct s as [|c s]; [reflexivity|]. cbn [lstrip].
  destruct (is_space c) eqn:Hc.
  - intros H. pose proof (lstrip_length s) as L. rewrite H in L. cbn in L. lia.
  - intros _. rewrite rstrip_cons. destruct (rstrip s); rewrite ?Hc; cbn [lstrip];
      now rewrite Hc.
Qed.

Lemma lstrip_idem s : lstrip (lstrip s) = lstrip s.
Proof.
  induction s as [|c s IH]; [reflexivity|]. cbn [lstrip].
  destruct (is_space c) eqn:Hc; [exact IH|]. cbn [lstrip]. now rewrite Hc.
Qed.

Lemma strip_idem s : strip (strip s) = strip s.
Proof.
  unfold strip. rewrite lstrip_rstrip by apply lstrip_idem. apply rstrip_idem.
Qed.

Lemma strip_all_space s : all_space s = true -> strip s = "".
Proof. intros H. unfold strip. now rewrite lstrip_all_space. Qed.

(** X21. Lower-casing and stripping commute; normalizing an address twice is
    normalizing it once; a normalized address gets the verdict of the address
    it comes from. *)
Theorem verify_email_normal_form e :
  strip (lower e) = lower (strip e) /\
  strip (lower (strip (lower e))) = strip (lower e) /\
  verify_status (strip (lower e)) = verify_status e.
Proof.
  assert (H : strip (lower (strip (lower e))) = strip (lower e)).
  { now rewrite lower_strip, lower_idem, strip_idem. }
  split; [now rewrite lower_strip|]. split; [exact H|].
  unfold verify_status. now rewrite H.
Qed.

(** X22. An address that is empty or made of whitespace only is ["valid"]:
    it normalizes to the empty string, whose MD5 digest is not a multiple of
    5. *)
Theorem verify_email_blank e :
  all_space e = true -> verify_status e = "valid".
Proof.
  intros H. unfold verify_status.
  rewrite (lower_all_space e H), (strip_all_space e H). vm_compute. reflexivity.
Qed.

End MoreText.

(** ** More runs on the test doubles *)

Section MoreRuns.
Local Open Scope string_scope.

(** Pages 2 and 1 of the plumbers of Austin share no name. *)
Lemma mock_scout_service_pages_differ_witness :
  2 > 1 /\ 2 <> 1 /\
  Forall
    (fun p1 =>
       Forall (fun p2 => BusinessProfile.name p1 <> BusinessProfile.name p2)
         (fst (Fake.mock_scout_service "plumbing" "Austin, TX" 1 (Fake.world0 None))))
    (fst (Fake.mock_scout_service "plumbing" "Austin, TX" 2 (Fake.world0 None))).
Proof.
  split; [lia|]. split; [lia|].
  apply (@mock_scout_service_pages_differ Fake.lcg Fake.scripted Fake.hash
           "plumbing" "Austin, TX" "Austin, TX" 2 1 (Fake.world0 None) (Fake.world0 None));
    lia.
Defined.

(** Links supplied by the model are dropped. *)
Lemma ai_profile_ignores_other_keys_witness :
  ~ In "social_media" item_keys /\
  ai_profile "plumbing" "Austin, TX"
    (PDict [("social_media", PDict [("linkedin", PStr "https://example.com")]);
            ("name", PStr "Joe's Plumbing")])
  = ai_profile "plumbing" "Austin, TX" (PDict [("name", PStr "Joe's Plumbing")]).
Proof.
  assert (H : ~ In "social_media" item_keys).
  { intros H. repeat (destruct H as [H|H]; [discriminate H|]). exact H. }
  split; [exact H|].
  exact (ai_profile_ignores_other_keys "plumbing" "Austin, TX" "social_media"
           (PDict [("linkedin", PStr "https://example.com")])
           [("name", PStr "Joe's Plumbing")] H).
Defined.

(** An item that only carries links. *)
Lemma ai_profile_defaults_witness :
  ai_profile "plumbing" "Austin, TX" (PDict [("social_media", PDict [])])
  = Some (BusinessProfile.mk
            "biz_d41d8cd98f" "Unknown" (PStr "plumbing") (PStr "Austin, TX") PNone
            (PStr "N/A") PNone
            [("linkedin", "https://linkedin.com/company/unknown");
             ("twitter", "https://twitter.com/unknown")]
            (search_url "Unknown" "Austin, TX") PNone PNone).
Proof.
  apply (ai_profile_defaults "plumbing" "Austin, TX" [("social_media", PDict [])]).
  intros k H. repeat (destruct H as [<-|H]; [reflexivity|]). destruct H.
Defined.

(** The same business in the replies to two requests. *)
Lemma ai_profile_id_of_name_witness :
  let d1 := [("name", PStr "Joe's Plumbing"); ("phone", PStr "555-0100")] in
  let d2 := [("rating", PInt 4); ("name", PStr "Joe's Plumbing")] in
  let id := "biz_" ++ substring 0 10 (MD5.hexdigest (encode "Joe's Plumbing")) in
  let socials := [("linkedin", "https://linkedin.com/company/joe'splumbing");
                  ("twitter", "https://twitter.com/joe'splumbing")] in
  let p1 := BusinessProfile.mk id "Joe's Plumbing" (PStr "plumbing") (PStr "Austin, TX")
              PNone (PStr "555-0100") PNone socials
              (search_url "Joe's Plumbing" "Austin, TX") PNone PNone in
  let p2 := BusinessProfile.mk id "Joe's Plumbing" (PStr "plumbers") (PStr "Austin")
              PNone (PStr "N/A") PNone socials
              (search_url "Joe's Plumbing" "Austin") (PInt 4) PNone in
  ai_profile "plumbing" "Austin, TX" (PDict d1) = Some p1 /\
  ai_profile "plumbers" "Austin" (PDict d2) = Some p2 /\
  BusinessProfile.name p1 = "Joe's Plumbing" /\
  BusinessProfile.name p2 = "Joe's Plumbing" /\
  BusinessProfile.id p1 = BusinessProfile.id p2 /\
  BusinessProfile.id p1
  = "biz_" ++ substring 0 10 (MD5.hexdigest (encode "Joe's Plumbing")).
Proof.
  cbv zeta.
  assert (H1 : ai_profile "plumbing" "Austin, TX"
                 (PDict [("name", PStr "Joe's Plumbing"); ("phone", PStr "555-0100")])
               = Some (BusinessProfile.mk
                         ("biz_" ++ substring 0 10 (MD5.hexdigest (encode "Joe's Plumbing")))
                         "Joe's Plumbing" (PStr "plumbing") (PStr "Austin, TX")
                         PNone (PStr "555-0100") PNone
                         [("linkedin", "https://linkedin.com/company/joe'splumbing");
                          ("twitter", "https://twitter.com/joe'splumbing")]
                         (search_url "Joe's Plumbing" "Austin, TX") PNone PNone))
    by (rewrite ai_profile_dict; reflexivity).
  assert (H2 : ai_profile "plumbers" "Austin"
                 (PDict [("rating", PInt 4); ("name", PStr "Joe's Plumbing")])
               = Some (BusinessProfile.mk
                         ("biz_" ++ substring 0 10 (MD5.hexdigest (encode "Joe's Plumbing")))
                         "Joe's Plumbing" (PStr "plumbers") (PStr "Austin")
                         PNone (PStr "N/A") PNone
                         [("linkedin", "https://linkedin.com/company/joe'splumbing");
                          ("twitter", "https://twitter.com/joe'splumbing")]
                         (search_url "Joe's Plumbing" "Austin") (PInt 4) PNone))
    by (rewrite ai_profile_dict; reflexivity).
  split; [exact H1|]. split; [exact H2|].
  exact (ai_profile_id_of_name "plumbing" "Austin, TX" "plumbers" "Austin"
           [("name", PStr "Joe's Plumbing"); ("phone", PStr "555-0100")]
           [("rating", PInt 4); ("name", PStr "Joe's Plumbing")]
           "Joe's Plumbing" _ _ eq_refl eq_refl H1 H2).
Defined.

(** An item named in ASCII goes through. *)
Lemma ai_profile_succeeds_witness :
  lookup "name" [("name", PStr "Ace Plumbing")] = Some (PStr "Ace Plumbing") /\
  is_ascii "Ace Plumbing" = true /\
  exists p, ai_profile "plumbing" "Austin, TX" (PDict [("name", PStr "Ace Plumbing")])
            = Some p.
Proof.
  split; [reflexivity|]. split; [reflexivity|].
  destruct (ai_profile_succeeds "plumbing" "Austin, TX"
              (PDict [("name", PStr "Ace Plumbing")])) as (_ & _ & _ & _ & H).
  exact (H _ _ eq_refl eq_refl eq_refl).
Defined.

(** A tab and two spaces. *)
Lemma verify_email_blank_witness :
  all_space (String (ascii_of_nat 9) "  ") = true /\
  verify_status (String (ascii_of_nat 9) "  ") = "valid".
Proof.
  split; [reflexivity|].
  apply (verify_email_blank (String (ascii_of_nat 9) "  ")). reflexivity.
Defined.

End MoreRuns.
